(** * The skill-plugin runtime of the assistant

    A shallow embedding of the supervised skill lifecycle
    ([skills/base.py]), the dispatcher ([core/brain.py]) and the context
    store ([core/data_manager.py]), with the properties the specification
    states about them. *)

From Stdlib Require Import ZArith NArith Ascii String DecimalString.
From stdpp Require Import base option list gmap.

Set Warnings "-register-all".

Local Open Scope Z_scope.

(** ** Python strings

    A Python [str] is a sequence of Unicode code points. *)

Definition str := list N.

(** An ASCII literal of the source, as code points. *)
Definition lit (s : string) : str := N_of_ascii <$> list_ascii_of_string s.

(** [str(n)] for an [int]. *)
Definition str_of_int (n : Z) : str := lit (NilZero.string_of_int (Z.to_int n)).

(** [sep.join(parts)]. *)
Fixpoint join (sep : str) (parts : list str) : str :=
  match parts with
  | [] => []
  | [p] => p
  | p :: rest => p ++ sep ++ join sep rest
  end.

(** [text.startswith(p)]. *)
Fixpoint startswith (p text : str) : bool :=
  match p, text with
  | [], _ => true
  | _ :: _, [] => false
  | x :: p', y :: text' => (x =? y)%N && startswith p' text'
  end.

(** [kw in text]: substring containment. *)
Fixpoint contains (kw text : str) : bool :=
  startswith kw text ||
  match text with
  | [] => false
  | _ :: text' => contains kw text'
  end.

(** [c.isspace()], the code points Python's [str.strip()] removes. *)
Definition isspace (c : N) : bool :=
  ((9 <=? c) && (c <=? 13) || (28 <=? c) && (c <=? 32)
   || (c =? 133) || (c =? 160) || (c =? 5760)
   || (8192 <=? c) && (c <=? 8202)
   || (c =? 8232) || (c =? 8233) || (c =? 8239) || (c =? 8287)
   || (c =? 12288))%N.

Fixpoint lstrip (s : str) : str :=
  match s with
  | [] => []
  | c :: s' => if isspace c then lstrip s' else s
  end.

Definition rstrip (s : str) : str := reverse (lstrip (reverse s)).

(** [s.strip()]. *)
Definition strip (s : str) : str := rstrip (lstrip s).

(** A string of whitespace only (the empty string included). *)
Definition whitespace_only (s : str) : Prop := Forall (fun c => isspace c = true) s.

(** Truth value of a [str]: the empty string is falsy. *)
Definition truthy (s : str) : bool :=
  match s with [] => false | _ :: _ => true end.

(** [history[-k:]] for a list. *)
Definition last_n {A} (k : nat) (l : list A) : list A :=
  drop (length l - k) l.

(** A Python [dict] whose insertion order matters ([skill_objects],
    [intent_map]): keys in order of first insertion. *)
Fixpoint dict_get {V} (k : str) (d : list (str * V)) : option V :=
  match d with
  | [] => None
  | (k', v) :: d' => if decide (k = k') then Some v else dict_get k d'
  end.

(** The object stored under [k] is mutated in place: same key, same
    position. *)
Fixpoint dict_replace {V} (k : str) (v : V) (d : list (str * V)) : list (str * V) :=
  match d with
  | [] => []
  | (k', v') :: d' =>
      if decide (k = k') then (k', v) :: d' else (k', v') :: dict_replace k v d'
  end.

(** [d[k] = v]: a known key keeps its place, a new key goes last. *)
Fixpoint dict_set {V} (k : str) (v : V) (d : list (str * V)) : list (str * V) :=
  match d with
  | [] => [(k, v)]
  | (k', v') :: d' =>
      if decide (k = k') then (k', v) :: d' else (k', v') :: dict_set k v d'
  end.

(** ** Exceptions, effects and the trace *)

(** Instances of [Exception]: [asyncio.TimeoutError] (the builtin
    [TimeoutError]) and every other class, with its [str(e)]. *)
Inductive exn :=
| TimeoutError (msg : str)
| OtherError (cls msg : str).

Definition exn_str (e : exn) : str :=
  match e with
  | TimeoutError msg => msg
  | OtherError _ msg => msg
  end.

Inductive res (A : Type) :=
| Ret (a : A)
| Raise (e : exn).
Arguments Ret {A} a.
Arguments Raise {A} e.

Inductive level := INFO | WARNING | ERROR.

(** What the body of a skill method does besides returning or raising. *)
Inductive effect :=
| LogRecord (lvl : level) (msg : str)
| Action (label : str).

(** A synchronous method body: its effects, then a value or an exception. *)
Definition eff (A : Type) : Type := list effect * res A.

(** A coroutine body: effects, stretches of synchronous work (with the
    time each takes, in milliseconds, during which the event loop runs
    nothing else) and suspension points (with the time before the
    coroutine is resumed; [Sleep 0] is [await asyncio.sleep(0)], a bare
    yield), then a value or an exception. *)
Inductive coro :=
| Finish (r : res str)
| Do (e : effect) (k : coro)
| Work (ms : N) (k : coro)
| Sleep (ms : N) (k : coro).

(** A lifecycle hook is an [async def] (what [BaseSkill] declares) or a
    plain [def] of a subclass; [asyncio.iscoroutinefunction] tells them
    apart. *)
Inductive hook_fn (A : Type) :=
| Coroutine (body : A -> eff unit)
| Plain (body : A -> eff unit).
Arguments Coroutine {A} body.
Arguments Plain {A} body.

Definition iscoroutinefunction {A} (h : hook_fn A) : bool :=
  match h with Coroutine _ => true | Plain _ => false end.

Inductive hook_name := on_start_hook | on_finish_hook | on_error_hook.

#[global] Instance hook_name_eq_dec : EqDecision hook_name.
Proof. solve_decision. Defined.

Inductive hook_call :=
| OnStart (args : str)
| OnFinish (args result : str)
| OnError (args : str) (error : exn).

Definition hook_of (c : hook_call) : hook_name :=
  match c with
  | OnStart _ => on_start_hook
  | OnFinish _ _ => on_finish_hook
  | OnError _ _ => on_error_hook
  end.

(** The records the runtime itself writes to its loggers. *)
Inductive log_record :=
| UserInput (text : str)
| Running (skill args : str)
| Finished (skill : str)
| TimedOut (msg : str)
| ExecutionFailure (skill : str) (e : exn)
| HookFailed (h : hook_name) (e : exn)
| FolderNotFound
| LoadFailed (module : str) (e : exn)
| Initialized (skills : list str)
| RoutingError (skill : str) (e : exn)
| ContextCorrupted
| SaveFailed (e : exn).

Inductive event :=
| Effect (e : effect)
| Awaited (c : hook_call)
| Executed (args : str)
| Logged (lvl : level) (r : log_record).

(** ** State and exceptions

    A computation over a mutable state [S]: it returns or raises, leaves a
    state either way, and appends to the trace. *)
Definition M (S A : Type) : Type := S -> res A * S * list event.

Definition ret {S A} (a : A) : M S A := fun s => (Ret a, s, []).

Definition raise {S A} (e : exn) : M S A := fun s => (Raise e, s, []).

Definition bind {S A B} (m : M S A) (f : A -> M S B) : M S B :=
  fun s =>
    match m s with
    | (Ret a, s', es) => let '(r, s'', es') := f a s' in (r, s'', es ++ es')
    | (Raise e, s', es) => (Raise e, s', es)
    end.

Definition emit {S} (ev : event) : M S unit := fun s => (Ret tt, s, [ev]).

Definition get {S} : M S S := fun s => (Ret s, s, []).

Definition put {S} (s : S) : M S unit := fun _ => (Ret tt, s, []).

(** [try: m  except Exception as e: handler e]. *)
Definition try_except {S A} (m : M S A) (handler : exn -> M S A) : M S A :=
  fun s =>
    match m s with
    | (Ret a, s', es) => (Ret a, s', es)
    | (Raise e, s', es) => let '(r, s'', es') := handler e s' in (r, s'', es ++ es')
    end.

(** Calling a synchronous method body. *)
Definition call {S A} (b : eff A) : M S A :=
  fun s => (snd b, s, Effect <$> fst b).

Declare Scope py_scope.
Delimit Scope py_scope with py.
Notation "'let*' x ':=' m 'in' k" := (bind m (fun x => k))
  (at level 10, x name, m at level 100, k at level 200) : py_scope.
Notation "m '>>' k" := (bind m (fun _ => k))
  (at level 100, k at level 200, right associativity) : py_scope.
Local Open Scope py_scope.

(** ** Coroutines under a deadline *)

(** [await c] with no deadline. *)
Fixpoint complete (c : coro) : eff str :=
  match c with
  | Finish r => ([], r)
  | Do e k => let '(es, r) := complete k in (e :: es, r)
  | Work _ k => complete k
  | Sleep _ k => complete k
  end.

(** Total time [c] stays suspended at its awaits, in milliseconds. *)
Fixpoint duration (c : coro) : N :=
  match c with
  | Finish _ => 0%N
  | Do _ k => duration k
  | Work _ k => duration k
  | Sleep ms k => (ms + duration k)%N
  end.

(** Total time [c] takes, working or suspended, in milliseconds. *)
Fixpoint elapsed (c : coro) : N :=
  match c with
  | Finish _ => 0%N
  | Do _ k => elapsed k
  | Work ms k => (ms + elapsed k)%N
  | Sleep ms k => (ms + elapsed k)%N
  end.

(** [c] under a timer that is due in [budget] milliseconds. The timer
    fires only while [c] is suspended: synchronous work uses up the time
    and is not interrupted, and a coroutine that finishes, even late,
    gives its result. A suspension that ends before the timer is due
    resumes, and so does a bare yield; at any other suspension [c] is
    cancelled, with the effects it had so far. *)
Fixpoint run_until (budget : Z) (c : coro) : eff str :=
  match c with
  | Finish r => ([], r)
  | Do e k => let '(es, r) := run_until budget k in (e :: es, r)
  | Work ms k => run_until (budget - Z.of_N ms) k
  | Sleep ms k =>
      if (ms =? 0)%N || (Z.of_N ms <? budget) then run_until (budget - Z.of_N ms) k
      else ([], Raise (TimeoutError []))
  end.

(** [asyncio.wait_for(c, timeout=timeout)], [timeout] in seconds: with a
    non-positive timeout the coroutine is cancelled before it starts. *)
Definition wait_for (c : coro) (timeout : Z) : eff str :=
  if timeout <=? 0 then ([], Raise (TimeoutError []))
  else run_until (1000 * timeout) c.

(** ** Values of the context memory

    What [json.load] builds: [None], [bool], [int], [float] (a finite
    binary fraction [m * 2^e]), [str], [list], and [dict] with [str] keys. *)
Inductive pyval :=
| PNone
| PBool (b : bool)
| PInt (n : Z)
| PFloat (m e : Z)
| PStr (s : str)
| PList (l : list pyval)
| PDict (d : gmap str pyval).

(** [type(v).__name__]. *)
Definition type_name (v : pyval) : str :=
  match v with
  | PNone => lit "NoneType"
  | PBool _ => lit "bool"
  | PInt _ => lit "int"
  | PFloat _ _ => lit "float"
  | PStr _ => lit "str"
  | PList _ => lit "list"
  | PDict _ => lit "dict"
  end.

(** ** Skills: [skills/base.py] *)

Record BaseSkill := {
  name : str;
  keywords : list str;
  description : str;
  timeout : Z;
  validate_input : str -> eff bool;
  check_configuration : eff bool;
  execute : str -> coro;
  on_start : hook_fn str;
  on_finish : hook_fn (str * str);
  on_error : hook_fn (str * exn)
}.

(** [BaseSkill.validate_input], the validator a subclass inherits. *)
Definition default_validate_input (args : str) : eff bool :=
  let is_valid := truthy args && truthy (strip args) in
  if negb is_valid
  then ([LogRecord WARNING (lit "Validation failed: Empty input.")], Ret is_valid)
  else ([], Ret is_valid).

(** [BaseSkill.check_configuration]. *)
Definition default_check_configuration : eff bool := ([], Ret true).

(** [BaseSkill.on_start], [on_finish], [on_error]: [async def ...: pass]. *)
Definition default_hook {A} : hook_fn A := Coroutine (fun _ => ([], Ret tt)).

(** [timeout or default]: [None] and [0] are falsy. *)
Definition py_or (timeout : option Z) (default : Z) : Z :=
  match timeout with
  | None => default
  | Some t => if t =? 0 then default else t
  end.

(** [actual_timeout = timeout or self.timeout], the deadline of [run]. *)
Definition actual_timeout (self : BaseSkill) (timeout_arg : option Z) : Z :=
  py_or timeout_arg (timeout self).

Section Runtime.

(** Python's [str.lower] and [str.capitalize]. *)
Variable lower : str -> str.
Variable capitalize : str -> str.

(** What a file holds, and the [json] module on it:
    [json.dump(obj, f, ensure_ascii=False, indent=2)] gives the text
    written and the exception it stopped at, if any; [json.load(f)]
    gives [None] for a [JSONDecodeError]. *)
Variable file_text : Type.
Variable json_dump : gmap str pyval -> file_text * option exn.
Variable json_load : file_text -> option (gmap str pyval).

(** [BaseSkill.format_error]. *)
Definition format_error (self : BaseSkill) (message : str) : str :=
  [10060%N] ++ lit " **" ++ capitalize (name self) ++ lit " Error:** " ++ message.

Definition timeout_message (self : BaseSkill) (actual_timeout : Z) : str :=
  [9201%N; 65039%N] ++ lit " Timeout: '" ++ name self ++ lit "' exceeded "
    ++ str_of_int actual_timeout ++ lit "s limit.".

(** [BaseSkill._safe_hook]. *)
Definition _safe_hook {S A} (c : A -> hook_call) (hook : hook_fn A) (args : A) : M S unit :=
  try_except
    (match hook with
     | Coroutine body => emit (Awaited (c args)) >> call (body args)
     | Plain _ => ret tt
     end)
    (fun e => emit (Logged WARNING (HookFailed (hook_of (c args)) e))).

(** What one [_safe_hook] leaves in the trace. *)
Definition hook_trace {A} (c : A -> hook_call) (hook : hook_fn A) (args : A) : list event :=
  match hook with
  | Coroutine body =>
      Awaited (c args) :: (Effect <$> fst (body args)) ++
      match snd (body args) with
      | Ret _ => []
      | Raise e => [Logged WARNING (HookFailed (hook_of (c args)) e)]
      end
  | Plain _ => []
  end.

(** [BaseSkill.run]; the state is the instance's [execution_count]. *)
Definition run (self : BaseSkill) (args : str) (timeout_arg : option Z) : M nat str :=
  let* valid := call (validate_input self args) in
  if negb valid then ret (format_error self (lit "Input is empty or invalid."))
  else
  let* configured := call (check_configuration self) in
  if negb configured
  then ret (format_error self
              (lit "Configuration check failed (Missing API Keys or Setup)."))
  else
  let actual_timeout := actual_timeout self timeout_arg in
  try_except
    (_safe_hook OnStart (on_start self) args >>
     emit (Logged INFO (Running (name self) args)) >>
     let* result :=
       (emit (Executed args) >> call (wait_for (execute self args) actual_timeout)) in
     _safe_hook (fun '(a, r) => OnFinish a r) (on_finish self) (args, result) >>
     let* count := get in
     put (S count) >>
     emit (Logged INFO (Finished (name self))) >>
     ret result)
    (fun e =>
       match e with
       | TimeoutError _ =>
           let msg := timeout_message self actual_timeout in
           emit (Logged ERROR (TimedOut msg)) >>
           _safe_hook (fun '(a, err) => OnError a err) (on_error self)
             (args, TimeoutError msg) >>
           ret (format_error self msg)
       | OtherError _ _ =>
           emit (Logged ERROR (ExecutionFailure (name self) e)) >>
           _safe_hook (fun '(a, err) => OnError a err) (on_error self) (args, e) >>
           ret (format_error self
                  (lit "An unexpected error occurred: " ++ exn_str e))
       end).

(** ** The context store: [core/data_manager.py] *)

(** [context_file]: the text on disk, [None] when the file does not
    exist; [writable]: whether [open(context_file, "w")] succeeds;
    [context_memory]: the one dict the brain and the skills share. *)
Record DataManager := {
  context_file : option file_text;
  writable : bool;
  context_memory : gmap str pyval
}.

(** [DataManager.load_context]. *)
Definition load_context : M DataManager (gmap str pyval) :=
  let* self := get in
  match context_file self with
  | Some text =>
      match json_load text with
      | Some document => ret document
      | None => emit (Logged ERROR ContextCorrupted) >> ret ∅
      end
  | None => ret ∅
  end.

(** [DataManager.save_context]. *)
Definition save_context : M DataManager unit :=
  try_except
    (let* self := get in
     if writable self then
       let '(written, failure) := json_dump (context_memory self) in
       put {| context_file := Some written;
              writable := writable self;
              context_memory := context_memory self |} >>
       match failure with
       | None => ret tt
       | Some e => raise e
       end
     else raise (OtherError (lit "PermissionError") (lit "Permission denied")))
    (fun e => emit (Logged ERROR (SaveFailed e))).

(** [DataManager.__init__], on a disk in a given state. *)
Definition DataManager_init (file : option file_text) (can_write : bool)
  : DataManager * list event :=
  let '(r, self, es) :=
    load_context {| context_file := file; writable := can_write; context_memory := ∅ |} in
  ({| context_file := file; writable := can_write;
      context_memory := match r with Ret m => m | Raise _ => ∅ end |}, es).

(** ** The dispatcher: [core/brain.py] *)

(** How a skill without [run] is executed: [async def execute] or a
    plain [def execute]. *)
Inductive legacy_execute :=
| AsyncExecute (body : str -> coro)
| SyncExecute (body : str -> eff str).

(** What [load_skills] instantiates: a [BaseSkill] subclass, with its
    [execution_count], or a class of its own that has [keywords] and
    [execute], no [run], and a [name] or none. *)
Inductive skill_obj :=
| Instance (cls : BaseSkill) (execution_count : nat)
| Legacy (class_name : str) (legacy_name : option str) (legacy_keywords : list str)
    (body : legacy_execute).

(** The attribute [name] of a skill, when it has one. *)
Definition name_of (skill : skill_obj) : option str :=
  match skill with
  | Instance cls _ => Some (name cls)
  | Legacy _ n _ _ => n
  end.

(** [skill.name]. *)
Definition skill_name {S} (skill : skill_obj) : M S str :=
  match skill with
  | Instance cls _ => ret (name cls)
  | Legacy _ (Some n) _ _ => ret n
  | Legacy cls None _ _ =>
      raise (OtherError (lit "AttributeError")
               (lit "'" ++ cls ++ lit "' object has no attribute 'name'"))
  end.

Definition skill_keywords (skill : skill_obj) : list str :=
  match skill with
  | Instance cls _ => keywords cls
  | Legacy _ _ kws _ => kws
  end.

(** [self.context_memory] is the very dict [data_manager.context_memory]
    names, so it is one field here. *)
Record AssistantBrain := {
  data_manager : DataManager;
  skill_objects : list (str * skill_obj);
  intent_map : list (str * list str)
}.

(** A module of the skills folder: importing it raises, or gives in the
    order of [dir(module)] the classes that have [execute] and [keywords]
    and are not [BaseSkill], each as what instantiating it gives. *)
Definition module : Type := str * res (list (res skill_obj)).

(** [getattr(skill_instance, "name", name).lower()], the key of a skill
    of the module [name]. *)
Definition registry_key (module_name : str) (skill_instance : skill_obj) : str :=
  lower (default module_name (name_of skill_instance)).

(** The body of the loop of [load_skills] over the attributes of one
    module: the first class that fails to instantiate ends it. *)
Fixpoint load_classes (module_name : str) (classes : list (res skill_obj))
    (skills : list (str * skill_obj)) : list (str * skill_obj) * option exn :=
  match classes with
  | [] => (skills, None)
  | Ret skill_instance :: rest =>
      load_classes module_name rest
        (dict_set (registry_key module_name skill_instance) skill_instance skills)
  | Raise e :: _ => (skills, Some e)
  end.

Fixpoint load_modules (modules : list module) (skills : list (str * skill_obj))
  : list (str * skill_obj) * list event :=
  match modules with
  | [] => (skills, [])
  | (module_name, Raise e) :: rest =>
      let '(skills', es) := load_modules rest skills in
      (skills', Logged ERROR (LoadFailed module_name e) :: es)
  | (module_name, Ret classes) :: rest =>
      let '(loaded, failure) := load_classes module_name classes skills in
      let '(skills', es) := load_modules rest loaded in
      (skills',
       match failure with
       | None => es
       | Some e => Logged ERROR (LoadFailed module_name e) :: es
       end)
  end.

(** [AssistantBrain.load_skills]; [folder] is [None] when there is no such
    folder. *)
Definition load_skills (folder : option (list module)) : list (str * skill_obj) * list event :=
  match folder with
  | None => ([], [Logged ERROR FolderNotFound])
  | Some modules =>
      let '(skills, es) := load_modules modules [] in
      (skills, es ++ [Logged INFO (Initialized (fst <$> skills))])
  end.

(** [AssistantBrain._build_intent_map]. *)
Definition _build_intent_map (skills : list (str * skill_obj)) : list (str * list str) :=
  (fun '(n, skill) => (n, skill_keywords skill)) <$> skills.

(** [AssistantBrain.__init__]. *)
Definition AssistantBrain_init (dm : DataManager) (folder : option (list module))
  : AssistantBrain * list event :=
  let '(skills, es) := load_skills folder in
  ({| data_manager := dm; skill_objects := skills;
      intent_map := _build_intent_map skills |}, es).

(** [any(kw in text for kw in keywords)]. *)
Definition any_keyword_in (keywords : list str) (text : str) : bool :=
  existsb (fun kw => contains kw text) keywords.

(** [AssistantBrain.detect_intent]. *)
Fixpoint detect_intent (imap : list (str * list str)) (text : str) : option str :=
  match imap with
  | [] => None
  | (skill_name, keywords) :: rest =>
      if any_keyword_in keywords text then Some skill_name
      else detect_intent rest text
  end.

(** [self.context_memory[key] = value]. *)
Definition set_item (key : str) (value : pyval) : M AssistantBrain unit :=
  let* self := get in
  let dm := data_manager self in
  put {| data_manager := {| context_file := context_file dm;
                            writable := writable dm;
                            context_memory := <[key := value]> (context_memory dm) |};
         skill_objects := skill_objects self;
         intent_map := intent_map self |}.

(** A method of the data manager, called from the brain. *)
Definition on_data_manager {A} (m : M DataManager A) : M AssistantBrain A :=
  fun self =>
    let '(r, dm, es) := m (data_manager self) in
    (r, {| data_manager := dm; skill_objects := skill_objects self;
           intent_map := intent_map self |}, es).

(** A method of the skill instance registered under [key], which it
    mutates in place. *)
Definition on_instance {A} (key : str) (cls : BaseSkill) (count : nat) (m : M nat A)
  : M AssistantBrain A :=
  fun self =>
    let '(r, count', es) := m count in
    (r, {| data_manager := data_manager self;
           skill_objects := dict_replace key (Instance cls count') (skill_objects self);
           intent_map := intent_map self |}, es).

Definition conversation_history : str := lit "conversation_history".

Definition turn (user_input result : str) : pyval :=
  PDict (<[lit "user" := PStr user_input]> (<[lit "assistant" := PStr result]> ∅)).

(** [AssistantBrain._update_memory]. *)
Definition _update_memory (skill_name user_input result : str) : M AssistantBrain unit :=
  set_item (lit "last_action") (PStr skill_name) >>
  set_item (lit "last_result") (PStr result) >>
  let* self := get in
  let stored := context_memory (data_manager self) !! conversation_history in
  let* history :=
    match default (PList []) stored with
    | PList l =>
        let appended := l ++ [turn user_input result] in
        (if stored is Some _ then set_item conversation_history (PList appended)
         else ret tt) >>
        ret appended
    | other =>
        raise (OtherError (lit "AttributeError")
                 (lit "'" ++ type_name other ++ lit "' object has no attribute 'append'"))
    end in
  set_item conversation_history (PList (last_n 10 history)) >>
  on_data_manager save_context.

(** [AssistantBrain.route_to_skill]; [key] is where [skill] sits in
    [skill_objects]. The handler reads [skill.name] for the record it
    logs and again for its answer, outside any [try]. A skill is run
    here for its answer, its effects and its [execution_count]; what the
    [execute] of a skill does to the shared memory is followed where that
    skill is modelled on the data manager, as [TodoSkill.execute] is
    below. *)
Definition route_to_skill (key : str) (skill : skill_obj) (args : str)
  : M AssistantBrain str :=
  try_except
    (let* result :=
       match skill with
       | Instance cls count => on_instance key cls count (run cls args None)
       | Legacy _ _ _ (AsyncExecute body) => call (complete (body args))
       | Legacy _ _ _ (SyncExecute body) => call (body args)
       end in
     let* action := skill_name skill in
     _update_memory action args result >>
     ret result)
    (fun e =>
       let* logged_name := skill_name skill in
       emit (Logged ERROR (RoutingError logged_name e)) >>
       let* answered_name := skill_name skill in
       ret ([10060%N] ++ lit " An internal error occurred while processing via "
              ++ answered_name ++ lit ".")).

Definition help_message (self : AssistantBrain) : str :=
  let available_skills := join (lit ", ") (capitalize <$> (fst <$> skill_objects self)) in
  [129300%N] ++ lit " I didn't understand that. I can currently help with: **"
    ++ available_skills ++ lit "**".

(** [AssistantBrain.process_input]. *)
Definition process_input (text : str) : M AssistantBrain str :=
  let text_lower := lower text in
  emit (Logged INFO (UserInput text)) >>
  let* self := get in
  match detect_intent (intent_map self) text_lower with
  | None => ret (help_message self)
  | Some intent =>
      if negb (truthy intent) then ret (help_message self)
      else
        match dict_get intent (skill_objects self) with
        | None =>
            ret ([10060%N] ++ lit " System Error: Intent '" ++ intent
                   ++ lit "' detected, but module is not loaded.")
        | Some skill => route_to_skill intent skill text
        end
  end.

End Runtime.

Arguments context_file {file_text} _.
Arguments writable {file_text} _.
Arguments context_memory {file_text} _.
Arguments data_manager {file_text} _.
Arguments skill_objects {file_text} _.
Arguments intent_map {file_text} _.
Arguments load_context {file_text} json_load.
Arguments save_context {file_text} json_dump.
Arguments DataManager_init {file_text} json_load file can_write.
Arguments AssistantBrain_init lower {file_text} dm folder.
Arguments set_item {file_text} key value.
Arguments on_data_manager {file_text A} m.
Arguments on_instance {file_text A} key cls count m.
Arguments _update_memory {file_text} json_dump skill_name user_input result.
Arguments route_to_skill capitalize {file_text} json_dump key skill args.
Arguments help_message capitalize {file_text} self.
Arguments process_input lower capitalize {file_text} json_dump text.

(** ** Reading a trace *)

(** The paths of [run] past its two gates, each marked by the record it
    logs. *)
Inductive path := SuccessPath | TimeoutPath | ErrorPath.

Definition path_of (ev : event) : option path :=
  match ev with
  | Logged INFO (Finished _) => Some SuccessPath
  | Logged ERROR (TimedOut _) => Some TimeoutPath
  | Logged ERROR (ExecutionFailure _ _) => Some ErrorPath
  | _ => None
  end.

Definition paths_taken (trace : list event) : list path := omap path_of trace.

(** The hook calls that were awaited, in order. *)
Definition awaited (trace : list event) : list hook_call :=
  omap (fun ev => match ev with Awaited c => Some c | _ => None end) trace.

(** The arguments [execute] was called with, in order. *)
Definition executed (trace : list event) : list str :=
  omap (fun ev => match ev with Executed args => Some args | _ => None end) trace.

(** The hook failures that were logged, in order. *)
Definition hook_failures (trace : list event) : list (hook_name * exn) :=
  omap (fun ev => match ev with
                  | Logged WARNING (HookFailed h e) => Some (h, e)
                  | _ => None
                  end) trace.

Definition is_hook_failure (ev : event) : bool :=
  match ev with Logged WARNING (HookFailed _ _) => true | _ => false end.

(** Both gates of [run] let the call through. *)
Definition gates_pass (self : BaseSkill) (args : str) : Prop :=
  snd (validate_input self args) = Ret true /\ snd (check_configuration self) = Ret true.

(** [execute] stays suspended for longer than [deadline] seconds. *)
Definition exceeds (c : coro) (deadline : Z) : Prop :=
  1000 * deadline < Z.of_N (duration c).


(** The same hook, had it not raised. *)
Definition pacify_hook {A} (h : hook_fn A) : hook_fn A :=
  match h with
  | Coroutine body => Coroutine (fun a => (fst (body a), Ret tt))
  | Plain body => Plain body
  end.

(** The same skill, had none of its hooks raised. *)
Definition pacify (self : BaseSkill) : BaseSkill :=
  {| name := name self; keywords := keywords self; description := description self;
     timeout := timeout self; validate_input := validate_input self;
     check_configuration := check_configuration self; execute := execute self;
     on_start := pacify_hook (on_start self);
     on_finish := pacify_hook (on_finish self);
     on_error := pacify_hook (on_error self) |}.

(** The same hook with nothing in its body, when it is a plain function. *)
Definition hollow_hook {A} (h : hook_fn A) : hook_fn A :=
  match h with
  | Coroutine body => Coroutine body
  | Plain _ => Plain (fun _ => ([], Ret tt))
  end.

(** The same skill, its plain hooks hollowed out. *)
Definition hollow (self : BaseSkill) : BaseSkill :=
  {| name := name self; keywords := keywords self; description := description self;
     timeout := timeout self; validate_input := validate_input self;
     check_configuration := check_configuration self; execute := execute self;
     on_start := hollow_hook (on_start self);
     on_finish := hollow_hook (on_finish self);
     on_error := hollow_hook (on_error self) |}.

(** The stored conversation history, when it is a list. *)
Definition history_of (memory : gmap str pyval) : option (list pyval) :=
  match memory !! lit "conversation_history" with
  | Some (PList l) => Some l
  | _ => None
  end.

(** The history is a list, or not there yet. *)
Definition history_appendable (memory : gmap str pyval) : Prop :=
  match memory !! lit "conversation_history" with
  | Some (PList _) | None => True
  | Some _ => False
  end.

(** ** Concrete skills and stores *)

(** [str.lower] and [str.capitalize] on ASCII text. *)
Definition lower_char (c : N) : N :=
  if ((65 <=? c) && (c <=? 90))%N then (c + 32)%N else c.

Definition upper_char (c : N) : N :=
  if ((97 <=? c) && (c <=? 122))%N then (c - 32)%N else c.

Definition lower_ascii (s : str) : str := lower_char <$> s.

Definition capitalize_ascii (s : str) : str :=
  match s with
  | [] => []
  | c :: s' => upper_char c :: lower_ascii s'
  end.

(** A subclass that overrides [name], [keywords] and [execute] only. *)
Definition subclass (n : str) (kws : list str) (body : str -> coro) : BaseSkill :=
  {| name := n; keywords := kws; description := lit "Base abstract skill.";
     timeout := 15;
     validate_input := default_validate_input;
     check_configuration := default_check_configuration;
     execute := body;
     on_start := default_hook; on_finish := default_hook; on_error := default_hook |}.

(** The two skills of the specification's scenario: [echo] returns its
    input, [fail] raises. *)
Definition echo_skill : BaseSkill :=
  subclass (lit "echo") [lit "echo"] (fun args => Finish (Ret args)).

Definition fail_skill : BaseSkill :=
  subclass (lit "fail") [lit "boom"]
    (fun _ => Finish (Raise (OtherError (lit "RuntimeError") (lit "boom")))).

(** A skill that answers after one second. *)
Definition nap_skill : BaseSkill :=
  subclass (lit "nap") [lit "nap"] (fun args => Sleep 1000 (Finish (Ret args))).

(** A skill that sleeps for twenty seconds, whose [on_error] is a plain
    [def], and whose [on_start] raises. *)
Definition slow_skill : BaseSkill :=
  {| name := lit "slow"; keywords := [lit "slow"]; description := lit "Sleeps.";
     timeout := 15;
     validate_input := default_validate_input;
     check_configuration := default_check_configuration;
     execute := fun args => Sleep 20000 (Finish (Ret args));
     on_start := Coroutine (fun _ => ([], Raise (OtherError (lit "ValueError") (lit "bad start"))));
     on_finish := default_hook;
     on_error := Plain (fun _ => ([Action (lit "alert")], Ret tt)) |}.


(** A skill that sleeps for as long as its deadline. *)
Definition edge_skill : BaseSkill :=
  subclass (lit "edge") [lit "edge"] (fun args => Sleep 15000 (Finish (Ret args))).

(** A store whose file holds the dict itself. *)
Definition dump_plain (memory : gmap str pyval) : gmap str pyval * option exn :=
  (memory, None).

Definition load_plain (text : gmap str pyval) : option (gmap str pyval) := Some text.

Definition fresh_store : DataManager (gmap str pyval) :=
  {| context_file := None; writable := true; context_memory := ∅ |}.

Definition scenario_brain : AssistantBrain (gmap str pyval) :=
  fst (AssistantBrain_init lower_ascii fresh_store
         (Some [(lit "echo_skill", Ret [Ret (Instance echo_skill 0)]);
                (lit "fail_skill", Ret [Ret (Instance fail_skill 0)])])).

(** ** Outcomes *)

Definition result_of {A S} (out : res A * S * list event) : res A := fst (fst out).
Definition state_of {A S} (out : res A * S * list event) : S := snd (fst out).
Definition trace_of {A S} (out : res A * S * list event) : list event := snd out.

Definition hook_is_coroutine (self : BaseSkill) (h : hook_name) : bool :=
  match h with
  | on_start_hook => iscoroutinefunction (on_start self)
  | on_finish_hook => iscoroutinefunction (on_finish self)
  | on_error_hook => iscoroutinefunction (on_error self)
  end.

(** [kw] occurs in [text] as a substring. *)
Definition occurs_in (kw text : str) : Prop :=
  exists before after, text = before ++ kw ++ after.

(** One of [keywords] occurs in [text]. *)
Definition matches (keywords : list str) (text : str) : Prop :=
  exists kw, kw ∈ keywords /\ occurs_in kw text.

(** The memory the brain and its data manager share. *)
Definition memory {file_text} (self : AssistantBrain file_text) : gmap str pyval :=
  context_memory (data_manager self).

Definition history_or_empty (m : gmap str pyval) : list pyval := default [] (history_of m).

(** At rest the history holds ten turns at most. *)
Definition history_bounded (m : gmap str pyval) : Prop :=
  (length (history_or_empty m) <= 10)%nat.

(** The brain after [_update_memory] for each of [turns], in order; a turn
    is the name of the skill, the text of the user and the result. *)
Definition record_turns {file_text} (json_dump : gmap str pyval -> file_text * option exn)
    (turns : list (str * str * str)) (self : AssistantBrain file_text)
  : AssistantBrain file_text :=
  foldl (fun b '(skill, user_input, result) =>
           state_of (_update_memory json_dump skill user_input result b)) self turns.

Definition entry_of (t : str * str * str) : pyval := turn (snd (fst t)) (snd t).

(** Two skills that share the keyword [echo]: [echo] is registered first,
    [parrot] after it. *)
Definition parrot_skill : BaseSkill :=
  subclass (lit "parrot") [lit "parrot"; lit "echo"]
    (fun args => Finish (Ret (args ++ args))).

Definition overlap_brain : AssistantBrain (gmap str pyval) :=
  fst (AssistantBrain_init lower_ascii fresh_store
         (Some [(lit "echo_skill", Ret [Ret (Instance echo_skill 0)]);
                (lit "parrot_skill", Ret [Ret (Instance parrot_skill 0)])])).

(** Fifteen turns of the [echo] skill. *)
Definition fifteen_turns : list (str * str * str) :=
  (fun i => (lit "echo", lit "echo " ++ str_of_int (Z.of_nat i),
                         lit "echo " ++ str_of_int (Z.of_nat i))) <$> seq 1 15.

(** The brain after [process_input] for each of [texts], in order. *)
Definition converse {file_text} (lower capitalize : str -> str)
    (json_dump : gmap str pyval -> file_text * option exn)
    (texts : list str) (self : AssistantBrain file_text) : AssistantBrain file_text :=
  foldl (fun b text => state_of (process_input lower capitalize json_dump text b)) self texts.

(** ** More of the runtime: what a run does, in order *)

(** The calls a run makes on the skill: hooks awaited and [execute]. *)
Inductive step :=
| Hook (c : hook_call)
| Exec (args : str).

Definition step_of (ev : event) : option step :=
  match ev with
  | Awaited c => Some (Hook c)
  | Executed args => Some (Exec args)
  | _ => None
  end.

Definition lifecycle (trace : list event) : list step := omap step_of trace.

(** The call of a hook, when [_safe_hook] makes it. *)
Definition hook_step {A} (c : A -> hook_call) (hook : hook_fn A) (args : A) : list step :=
  if iscoroutinefunction hook then [Hook (c args)] else [].

(** ** More of the registry *)

(** The classes of a module that [load_skills] instantiates: those before
    the first that fails. *)
Fixpoint instantiated_classes (classes : list (res skill_obj)) : list skill_obj :=
  match classes with
  | Ret skill :: rest => skill :: instantiated_classes rest
  | _ => []
  end.

(** The skills [load_skills] instantiates, each with the name of its
    module. *)
Definition instantiated (modules : list module) : list (str * skill_obj) :=
  m ← modules;
  match snd m with
  | Ret classes => (fun skill => (fst m, skill)) <$> instantiated_classes classes
  | Raise _ => []
  end.

(** The registry and the intent map name the same skills, in the same
    order. *)
Definition registry_consistent {file_text} (self : AssistantBrain file_text) : Prop :=
  fst <$> intent_map self = fst <$> skill_objects self.

(** An ASCII capital letter. *)
Definition ascii_upper (c : N) : bool := ((65 <=? c) && (c <=? 90))%N.

(** ** More of the dispatcher *)

(** What executing a skill gives: the string [run] returns, or what
    [execute] returns for a skill without [run], or the exception raised. *)
Definition skill_result (capitalize : str -> str) (skill : skill_obj) (args : str) : res str :=
  match skill with
  | Instance cls count => result_of (run capitalize cls args None count)
  | Legacy _ _ _ (AsyncExecute body) => snd (complete (body args))
  | Legacy _ _ _ (SyncExecute body) => snd (body args)
  end.

(** The exception of [skill.name] on a skill of class [cls] without
    [name]. *)
Definition no_name (cls : str) : exn :=
  OtherError (lit "AttributeError") (lit "'" ++ cls ++ lit "' object has no attribute 'name'").

(** What [route_to_skill] has in hand when it calls [_update_memory]: the
    result of the skill, or the exception raised before the call, by the
    skill or by [skill.name]. *)
Definition skill_outcome (capitalize : str -> str) (skill : skill_obj) (args : str) : res str :=
  match skill_result capitalize skill args, skill with
  | Ret _, Legacy cls None _ _ => Raise (no_name cls)
  | outcome, _ => outcome
  end.

(** The answer of [route_to_skill] when something in it raised. *)
Definition internal_error (skill : str) : str :=
  [10060%N] ++ lit " An internal error occurred while processing via " ++ skill ++ lit ".".

(** The memory after the first two assignments of [_update_memory]. *)
Definition with_last_turn (skill result : str) (m : gmap str pyval) : gmap str pyval :=
  <[lit "last_result" := PStr result]> (<[lit "last_action" := PStr skill]> m).

(** What executing a skill leaves in the trace. *)
Definition skill_trace (capitalize : str -> str) (skill : skill_obj) (args : str) : list event :=
  match skill with
  | Instance cls count => trace_of (run capitalize cls args None count)
  | Legacy _ _ _ (AsyncExecute body) => Effect <$> fst (complete (body args))
  | Legacy _ _ _ (SyncExecute body) => Effect <$> fst (body args)
  end.

(** The skill object after it was executed: an instance with the count
    [run] left. *)
Definition skill_after (capitalize : str -> str) (skill : skill_obj) (args : str) : skill_obj :=
  match skill with
  | Instance cls count => Instance cls (state_of (run capitalize cls args None count))
  | Legacy cls n kws body => Legacy cls n kws body
  end.

(** The brain after the skill under [key] was executed, before the turn
    is recorded. *)
Definition executed_brain {file_text} (capitalize : str -> str) (key : str) (skill : skill_obj)
    (args : str) (self : AssistantBrain file_text) : AssistantBrain file_text :=
  match skill with
  | Instance _ _ =>
      {| data_manager := data_manager self;
         skill_objects := dict_replace key (skill_after capitalize skill args) (skill_objects self);
         intent_map := intent_map self |}
  | Legacy _ _ _ _ => self
  end.

(** [lower] gives no ASCII capital letter, as [str.lower] does not. *)
Definition lowers (lower : str -> str) : Prop :=
  forall text c, c ∈ lower text -> ascii_upper c = false.

(** A keyword with an ASCII capital letter in it. *)
Definition capitalised (kw : str) : Prop := exists c, c ∈ kw /\ ascii_upper c = true.

(** A store whose file holds the dict, or nothing readable when the dump
    stopped half-way; a dict with the key [blob] cannot be dumped. *)
Definition dump_guarded (m : gmap str pyval) : option (gmap str pyval) * option exn :=
  match m !! lit "blob" with
  | Some _ =>
      (None, Some (OtherError (lit "TypeError")
                     (lit "Object of type bytes is not JSON serializable")))
  | None => (Some m, None)
  end.

Definition load_guarded (text : option (gmap str pyval)) : option (gmap str pyval) := text.

(** ** Memory utilities of a skill: [skills/base.py] *)

Section MemoryUtilities.

Variable file_text : Type.
Variable json_dump : gmap str pyval -> file_text * option exn.

(** A method of [self.data_manager], which may be [None]. *)
Definition on_present {A} (m : M (DataManager file_text) A)
  : M (option (DataManager file_text)) A :=
  fun data_manager =>
    match data_manager with
    | Some dm => let '(r, dm', es) := m dm in (r, Some dm', es)
    | None =>
        (Raise (OtherError (lit "AttributeError")
                  (lit "'NoneType' object has no attribute 'save_context'")), None, [])
    end.

(** [BaseSkill.save_to_memory]; the state is [self.data_manager]. The
    debug record is below the level the loggers are set to and leaves no
    trace. *)
Definition save_to_memory (key : str) (value : pyval)
  : M (option (DataManager file_text)) unit :=
  let* data_manager := get in
  match data_manager with
  | Some dm =>
      try_except
        (put (Some {| context_file := context_file dm; writable := writable dm;
                      context_memory := <[key := value]> (context_memory dm) |}) >>
         on_present (save_context json_dump))
        (fun e =>
           emit (Effect (LogRecord ERROR
                           (lit "Failed to save memory '" ++ key ++ lit "': " ++ exn_str e))))
  | None => emit (Effect (LogRecord WARNING (lit "DataManager missing. Memory not saved.")))
  end.

(** [BaseSkill.read_from_memory]. *)
Definition read_from_memory (data_manager : option (DataManager file_text))
    (key : str) (default_value : pyval) : pyval :=
  match data_manager with
  | Some dm => default default_value (context_memory dm !! key)
  | None => default_value
  end.

(** [BaseSkill.safe_read_list]. *)
Definition safe_read_list (data_manager : option (DataManager file_text)) (key : str)
  : list pyval :=
  match read_from_memory data_manager key PNone with
  | PList l => l
  | _ => []
  end.

(** [BaseSkill.safe_read_dict]. *)
Definition safe_read_dict (data_manager : option (DataManager file_text)) (key : str)
  : gmap str pyval :=
  match read_from_memory data_manager key PNone with
  | PDict d => d
  | _ => ∅
  end.

End MemoryUtilities.

Arguments on_present {file_text A} m.
Arguments save_to_memory {file_text} json_dump key value.
Arguments read_from_memory {file_text} data_manager key default_value.
Arguments safe_read_list {file_text} data_manager key.
Arguments safe_read_dict {file_text} data_manager key.

(** ** The to-do skill: [skills/todo_skill.py] *)

(** [text.split(sep, 1)[1]], for a non-empty [sep]: what follows the first
    occurrence of [sep]; [None] stands for the [IndexError] when there is
    none. *)
Fixpoint after_first (sep text : str) : option str :=
  if startswith sep text then Some (drop (length sep) text)
  else match text with
       | [] => None
       | _ :: text' => after_first sep text'
       end.

(** Truth value of a value: [None], [False], zero and the empty string,
    list and dict are falsy. *)
Definition py_truthy (v : pyval) : bool :=
  match v with
  | PNone => false
  | PBool b => b
  | PInt n => negb (n =? 0)
  | PFloat m _ => negb (m =? 0)
  | PStr s => truthy s
  | PList l => match l with [] => false | _ :: _ => true end
  | PDict d => match map_to_list d with [] => false | _ :: _ => true end
  end.

Definition todo_list : str := lit "todo_list".

(** The conditions of the three branches of [TodoSkill.execute]. *)
Definition asks_add (args : str) : bool :=
  contains (lit "add:") args || contains (lit "ekle") args.

Definition asks_list (args : str) : bool :=
  contains (lit "list") args || contains [103; 246; 115; 116; 101; 114]%N args.

Definition asks_clear (args : str) : bool :=
  contains (lit "clear") args || contains (lit "temizle") args.

Definition task_added (task_content : str) : str :=
  [9989%N] ++ lit " **Task Added:** " ++ task_content.

Definition empty_task : str := [9888; 65039]%N ++ lit " Cannot add an empty task.".

Definition list_is_empty : str := [128194%N] ++ lit " Your to-do list is empty.".

Definition list_cleared : str := [128465; 65039]%N ++ lit " List cleared.".

Definition todo_usage : str :=
  [128161%N] ++ lit " **Usage:** `todo add: Buy milk`, `todo list`, `todo clear`".

Definition todo_error (e : exn) : str := [10060%N] ++ lit " Todo Error: " ++ exn_str e.

Section TodoSkill.

Variable file_text : Type.
Variable json_dump : gmap str pyval -> file_text * option exn.

(** [datetime.datetime.now().strftime("%Y-%m-%d %H:%M")] at the call. *)
Variable now : str.

(** [str(v)] for a value that is not a [str], and the order in which a
    dict yields its keys. *)
Variable py_str : pyval -> str.
Variable dict_keys : gmap str pyval -> list str.

(** [f"{v}"]. *)
Definition py_format (v : pyval) : str :=
  match v with
  | PStr s => s
  | other => py_str other
  end.

(** What [for ... in enumerate(tasks)] goes through. *)
Definition py_iter (v : pyval) : res (list pyval) :=
  match v with
  | PList l => Ret l
  | PStr s => Ret ((fun c => PStr [c]) <$> s)
  | PDict d => Ret (PStr <$> dict_keys d)
  | other =>
      Raise (OtherError (lit "TypeError")
               (lit "'" ++ type_name other ++ lit "' object is not iterable"))
  end.

(** One line of the listing: [f"{i + 1}. {task_text}{time_text}"]. *)
Definition todo_line (i : nat) (t : pyval) : str :=
  let task_text :=
    match t with
    | PDict d => default t (d !! lit "task")
    | _ => t
    end in
  let time_text :=
    match t with
    | PDict d => lit " _(" ++ py_format (default (PStr []) (d !! lit "created_at")) ++ lit ")_"
    | _ => []
    end in
  str_of_int (Z.of_nat i + 1) ++ lit ". " ++ py_format task_text ++ time_text.

Definition todo_lines (tasks : list pyval) : list str := imap todo_line tasks.

Definition new_task (task_content : str) : pyval :=
  PDict (<[lit "task" := PStr task_content]>
           (<[lit "created_at" := PStr now]>
              (<[lit "status" := PStr (lit "pending")]> ∅))).

(** [TodoSkill._save_tasks]; without a data manager [context] is a dict of
    the call and the assignment is lost with it. *)
Definition _save_tasks (tasks : pyval) : M (option (DataManager file_text)) unit :=
  let* data_manager := get in
  match data_manager with
  | Some dm =>
      put (Some {| context_file := context_file dm; writable := writable dm;
                   context_memory := <[todo_list := tasks]> (context_memory dm) |}) >>
      on_present (save_context json_dump)
  | None => ret tt
  end.

(** [TodoSkill.execute]; the state is [self.data_manager]. *)
Definition TodoSkill_execute (args : str) : M (option (DataManager file_text)) str :=
  let* data_manager := get in
  let context :=
    match data_manager with
    | Some dm => context_memory dm
    | None => ∅
    end in
  let tasks := default (PList []) (context !! todo_list) in
  try_except
    (if asks_add args then
       let splitter := if contains (lit "add:") args then lit "add:" else lit "ekle" in
       match after_first splitter args with
       | None =>
           ret ([9888; 65039]%N
                  ++ lit " Please write the task. Example: `todo add: Buy milk`")
       | Some rest =>
           let task_content := strip rest in
           if negb (truthy task_content) then ret empty_task
           else
             match tasks with
             | PList l =>
                 _save_tasks (PList (l ++ [new_task task_content])) >>
                 ret (task_added task_content)
             | other =>
                 raise (OtherError (lit "AttributeError")
                          (lit "'" ++ type_name other
                             ++ lit "' object has no attribute 'append'"))
             end
       end
     else if asks_list args then
       if negb (py_truthy tasks) then ret list_is_empty
       else
         match py_iter tasks with
         | Ret items =>
             ret (lit "### " ++ [128221%N] ++ lit " Your Tasks" ++ [10%N]
                    ++ join [10%N] (todo_lines items))
         | Raise e => raise e
         end
     else if asks_clear args then
       _save_tasks (PList []) >> ret list_cleared
     else ret todo_usage)
    (fun e => ret (todo_error e)).

End TodoSkill.

Arguments _save_tasks {file_text} json_dump tasks.
Arguments TodoSkill_execute {file_text} json_dump now py_str dict_keys args.

(** The task an input asks to add, stripped: what follows the first
    [add:], or the first [ekle] when there is no [add:]. *)
Definition requested_task (args : str) : option str :=
  if asks_add args
  then strip <$> after_first (if contains (lit "add:") args then lit "add:" else lit "ekle") args
  else None.

(** The list stored under [todo_list], or the empty list when nothing is
    stored. *)
Definition stored_tasks {file_text} (dm : DataManager file_text) : pyval :=
  default (PList []) (context_memory dm !! todo_list).

(** ** More concrete skills and stores *)

(** A skill whose configuration check fails. *)
Definition unconfigured_skill : BaseSkill :=
  {| name := lit "news"; keywords := [lit "news"]; description := lit "Headlines.";
     timeout := 15;
     validate_input := default_validate_input;
     check_configuration :=
       ([LogRecord WARNING (lit "API key for 'news' not found in environment.")], Ret false);
     execute := fun args => Finish (Ret args);
     on_start := default_hook; on_finish := default_hook; on_error := default_hook |}.

(** A skill whose [execute] raises a timeout error of its own at once. *)
Definition fetch_skill : BaseSkill :=
  subclass (lit "fetch") [lit "fetch"] (fun _ => Finish (Raise (TimeoutError []))).

(** A skill without [run] whose [execute] raises. *)
Definition old_skill : skill_obj :=
  Legacy (lit "OldSkill") (Some (lit "old")) [lit "old"]
    (SyncExecute (fun _ => ([], Raise (OtherError (lit "KeyError") (lit "'city'"))))).

(** A class that has [keywords] and [execute] and no [name], in a module
    [plugin.py] of the skills folder. *)
Definition nameless_skill : skill_obj :=
  Legacy (lit "Plugin") None [lit "plug"] (SyncExecute (fun args => ([], Ret args))).

Definition plugin_brain : AssistantBrain (gmap str pyval) :=
  fst (AssistantBrain_init lower_ascii fresh_store
         (Some [(lit "echo_skill", Ret [Ret (Instance echo_skill 0)]);
                (lit "plugin", Ret [Ret nameless_skill])])).

(** A skill with an empty string among its keywords, registered after
    [echo]. *)
Definition catch_all_skill : BaseSkill :=
  subclass (lit "all") [@nil N] (fun args => Finish (Ret (args ++ args))).

Definition catch_all_brain : AssistantBrain (gmap str pyval) :=
  fst (AssistantBrain_init lower_ascii fresh_store
         (Some [(lit "echo_skill", Ret [Ret (Instance echo_skill 0)]);
                (lit "all_skill", Ret [Ret (Instance catch_all_skill 0)])])).

(** The brain of the scenario on a memory whose history is [None]. *)
Definition broken_brain : AssistantBrain (gmap str pyval) :=
  fst (AssistantBrain_init lower_ascii
         {| context_file := None; writable := true;
            context_memory := {[ conversation_history := PNone ]} |}
         (Some [(lit "echo_skill", Ret [Ret (Instance echo_skill 0)]);
                (lit "fail_skill", Ret [Ret (Instance fail_skill 0)])])).

(** A folder with a module that cannot be imported and a module whose
    second class cannot be instantiated. *)
Definition import_error : exn := OtherError (lit "ImportError") (lit "No module named 'aiohttp'").

(** A data manager on a file that holds an earlier context, with a memory
    that cannot be dumped. *)
Definition blob_store : DataManager (option (gmap str pyval)) :=
  {| context_file := Some (Some ∅); writable := true;
     context_memory := {[ lit "blob" := PNone ]} |}.

(** A store in which [todo_list] holds a string. *)
Definition string_store : DataManager (gmap str pyval) :=
  {| context_file := None; writable := true;
     context_memory := {[ todo_list := PStr (lit "milk") ]} |}.

Definition clock : str := lit "2026-01-05 09:30".

(** [str(v)] for [None], booleans and integers. *)
Definition plain_str (v : pyval) : str :=
  match v with
  | PNone => lit "None"
  | PBool true => lit "True"
  | PBool false => lit "False"
  | PInt n => str_of_int n
  | _ => []
  end.

Definition keys_of (d : gmap str pyval) : list str := fst <$> map_to_list d.
(** ** Facts about strings *)

Lemma startswith_spec (p text : str) :
  startswith p text = true <-> exists rest, text = p ++ rest.
Proof.
  revert text. induction p as [|x p IH]; intros [|y text]; simpl.
  - split; [exists []; reflexivity | reflexivity].
  - split; [eexists; reflexivity | reflexivity].
  - split; [discriminate | intros [rest H]; discriminate].
  - rewrite andb_true_iff, N.eqb_eq, IH. split.
    + intros [-> [rest ->]]. eexists; reflexivity.
    + intros [rest H]. injection H as -> ->. split; [reflexivity | eexists; reflexivity].
Qed.

(** [kw in text] holds exactly when [kw] occurs in [text] as a substring. *)
Lemma contains_spec (kw text : str) :
  contains kw text = true <-> exists before after, text = before ++ kw ++ after.
Proof.
  induction text as [|c text IH]; simpl.
  - rewrite orb_false_r, startswith_spec. split.
    + intros [rest H]. exists [], rest. exact H.
    + intros (before & after & H). destruct before; [|discriminate].
      exists after. exact H.
  - rewrite orb_true_iff, startswith_spec, IH. split.
    + intros [[rest H] | (before & after & ->)].
      * exists [], rest. exact H.
      * exists (c :: before), after. reflexivity.
    + intros ([|b before] & after & H).
      * left. exists after. exact H.
      * right. injection H as -> ->. exists before, after. reflexivity.
Qed.

Lemma lstrip_nil (s : str) : lstrip s = [] <-> whitespace_only s.
Proof.
  unfold whitespace_only. induction s as [|c s IH]; simpl.
  - split; [constructor | reflexivity].
  - destruct (isspace c) eqn:E.
    + rewrite IH. split; [intros H; constructor; assumption | intros H; inversion H; assumption].
    + split; [discriminate | intros H; inversion H; congruence].
Qed.

Lemma lstrip_suffix (s : str) : exists dropped, s = dropped ++ lstrip s /\ whitespace_only dropped.
Proof.
  induction s as [|c s (dropped & IH & Hw)]; simpl.
  - exists []. split; [reflexivity | constructor].
  - destruct (isspace c) eqn:E.
    + exists (c :: dropped). split; [simpl; congruence | constructor; assumption].
    + exists []. split; [reflexivity | constructor].
Qed.

Lemma strip_nil (s : str) : strip s = [] <-> whitespace_only s.
Proof.
  unfold strip, rstrip. split.
  - intros H. apply (f_equal reverse) in H. rewrite reverse_involutive in H.
    change (reverse []) with (@nil N) in H. apply lstrip_nil in H.
    destruct (lstrip_suffix s) as (dropped & Hs & Hw).
    rewrite Hs. apply Forall_app. split; [exact Hw|].
    unfold whitespace_only in H. rewrite Forall_reverse in H. exact H.
  - intros H. apply lstrip_nil in H. rewrite H. reflexivity.
Qed.

Lemma truthy_false (s : str) : truthy s = false <-> s = [].
Proof. destruct s; simpl; split; congruence. Qed.

(** ** Facts about the lifecycle *)

Lemma paths_taken_app (t1 t2 : list event) :
  paths_taken (t1 ++ t2) = paths_taken t1 ++ paths_taken t2.
Proof. apply omap_app. Qed.

Lemma paths_taken_effects (es : list effect) : paths_taken (Effect <$> es) = [].
Proof. induction es; simpl; auto. Qed.

Lemma awaited_app (t1 t2 : list event) : awaited (t1 ++ t2) = awaited t1 ++ awaited t2.
Proof. apply omap_app. Qed.

Lemma awaited_effects (es : list effect) : awaited (Effect <$> es) = [].
Proof. induction es; simpl; auto. Qed.

Lemma executed_app (t1 t2 : list event) : executed (t1 ++ t2) = executed t1 ++ executed t2.
Proof. apply omap_app. Qed.

Lemma executed_effects (es : list effect) : executed (Effect <$> es) = [].
Proof. induction es; simpl; auto. Qed.

Lemma hook_failures_app (t1 t2 : list event) :
  hook_failures (t1 ++ t2) = hook_failures t1 ++ hook_failures t2.
Proof. apply omap_app. Qed.

Lemma hook_failures_effects (es : list effect) : hook_failures (Effect <$> es) = [].
Proof. induction es; simpl; auto. Qed.

Lemma awaited_hook {A} (c : A -> hook_call) (hook : hook_fn A) (args : A) :
  awaited (hook_trace c hook args) = if iscoroutinefunction hook then [c args] else [].
Proof.
  unfold hook_trace. destruct hook as [body|body]; [|reflexivity].
  pose proof (awaited_effects (fst (body args))) as Hes.
  unfold awaited in *. simpl. rewrite omap_app, Hes.
  destruct (snd (body args)); reflexivity.
Qed.

Lemma executed_hook {A} (c : A -> hook_call) (hook : hook_fn A) (args : A) :
  executed (hook_trace c hook args) = [].
Proof.
  unfold hook_trace. destruct hook as [body|body]; [|reflexivity].
  pose proof (executed_effects (fst (body args))) as Hes.
  unfold executed in *. simpl. rewrite omap_app, Hes.
  destruct (snd (body args)); reflexivity.
Qed.

Lemma hook_failures_hook {A} (c : A -> hook_call) (hook : hook_fn A) (args : A) :
  hook_failures (hook_trace c hook args) =
  match hook with
  | Coroutine body =>
      match snd (body args) with
      | Ret _ => []
      | Raise e => [(hook_of (c args), e)]
      end
  | Plain _ => []
  end.
Proof.
  unfold hook_trace. destruct hook as [body|body]; [|reflexivity].
  pose proof (hook_failures_effects (fst (body args))) as Hes.
  unfold hook_failures in *. simpl. rewrite omap_app, Hes.
  destruct (snd (body args)); reflexivity.
Qed.

Lemma filter_effects (es : list effect) :
  filter (fun ev => is_hook_failure ev = false) (Effect <$> es) = Effect <$> es.
Proof.
  induction es as [|e es IH]; [reflexivity|].
  rewrite fmap_cons, filter_cons_True by reflexivity. rewrite IH. reflexivity.
Qed.

Lemma filter_hook_trace {A} (c : A -> hook_call) (hook : hook_fn A) (args : A) :
  filter (fun ev => is_hook_failure ev = false) (hook_trace c hook args) =
  hook_trace c (pacify_hook hook) args.
Proof.
  unfold hook_trace. destruct hook as [body|body]; [|reflexivity]. simpl.
  rewrite filter_cons_True by reflexivity. rewrite filter_app, filter_effects, app_nil_r.
  destruct (snd (body args)); [rewrite app_nil_r; reflexivity|].
  rewrite filter_cons_False by (simpl; discriminate). rewrite app_nil_r. reflexivity.
Qed.

(** The inherited validator rejects the empty string and the strings of
    whitespace, and nothing else. *)
Lemma default_validate_input_spec (args : str) :
  snd (default_validate_input args) = Ret false <-> args = [] \/ whitespace_only args.
Proof.
  unfold default_validate_input.
  assert (truthy args && truthy (strip args) = false <-> args = [] \/ whitespace_only args) as H.
  { rewrite andb_false_iff, !truthy_false, strip_nil. reflexivity. }
  destruct (truthy args && truthy (strip args)) eqn:E; simpl.
  - split; [discriminate|]. intros H'. apply H in H'. discriminate.
  - split; [intros _; apply H; reflexivity | reflexivity].
Qed.




(** Under any timer, a coroutine that raises a timeout error of its own
    ends with a timeout error. *)
Lemma run_until_inner_timeout (c : coro) (budget : Z) (inner : str) :
  snd (complete c) = Raise (TimeoutError inner) ->
  exists msg, snd (run_until budget c) = Raise (TimeoutError msg).
Proof.
  revert budget. induction c as [r|e k IH|ms k IH|ms k IH]; intros budget H; simpl in *.
  - eauto.
  - destruct (complete k) as [es r]. cbn [snd] in *.
    destruct (IH budget H) as [msg Hm]. destruct (run_until budget k). eauto.
  - apply IH, H.
  - destruct ((ms =? 0)%N || (Z.of_N ms <? budget)); [apply IH, H | eauto].
Qed.

Lemma hook_trace_hollow {A} (c : A -> hook_call) (hook : hook_fn A) (args : A) :
  hook_trace c (hollow_hook hook) args = hook_trace c hook args.
Proof. destruct hook; reflexivity. Qed.

Section Lifecycle.

Variable capitalize : str -> str.

Lemma _safe_hook_eq {S A} (c : A -> hook_call) (hook : hook_fn A) (args : A) (s : S) :
  _safe_hook c hook args s = (Ret tt, s, hook_trace c hook args).
Proof.
  unfold _safe_hook, hook_trace, try_except, bind, emit, call, ret.
  destruct hook as [body|body]; [|reflexivity].
  destruct (body args) as [es [[]|e]]; simpl; rewrite ?app_nil_r; reflexivity.
Qed.

Lemma paths_taken_hook {A} (c : A -> hook_call) (hook : hook_fn A) (args : A) :
  paths_taken (hook_trace c hook args) = [].
Proof.
  unfold hook_trace. destruct hook as [body|body]; [|reflexivity].
  simpl. rewrite paths_taken_app, paths_taken_effects.
  destruct (snd (body args)); reflexivity.
Qed.

End Lifecycle.

Section Claims.

Variable capitalize : str -> str.

(** [run], one case at a time. *)
Lemma run_eq (self : BaseSkill) (args : str) (timeout_arg : option Z) (n : nat) :
  run capitalize self args timeout_arg n =
  let '(ve, vr) := validate_input self args in
  match vr with
  | Raise e => (Raise e, n, Effect <$> ve)
  | Ret false =>
      (Ret (format_error capitalize self (lit "Input is empty or invalid.")), n,
       Effect <$> ve)
  | Ret true =>
      let '(ce, cr) := check_configuration self in
      match cr with
      | Raise e => (Raise e, n, (Effect <$> ve) ++ (Effect <$> ce))
      | Ret false =>
          (Ret (format_error capitalize self
                  (lit "Configuration check failed (Missing API Keys or Setup).")), n,
           (Effect <$> ve) ++ (Effect <$> ce))
      | Ret true =>
          let deadline := actual_timeout self timeout_arg in
          let '(we, wr) := wait_for (execute self args) deadline in
          let started :=
            (Effect <$> ve) ++ (Effect <$> ce) ++ hook_trace OnStart (on_start self) args
              ++ [Logged INFO (Running (name self) args); Executed args]
              ++ (Effect <$> we) in
          match wr with
          | Ret result =>
              (Ret result, S n,
               started
                 ++ hook_trace (fun '(a, r) => OnFinish a r) (on_finish self) (args, result)
                 ++ [Logged INFO (Finished (name self))])
          | Raise (TimeoutError _) =>
              let msg := timeout_message self deadline in
              (Ret (format_error capitalize self msg), n,
               started ++ [Logged ERROR (TimedOut msg)]
                 ++ hook_trace (fun '(a, err) => OnError a err) (on_error self)
                      (args, TimeoutError msg))
          | Raise (OtherError cls m) =>
              (Ret (format_error capitalize self
                      (lit "An unexpected error occurred: " ++ m)), n,
               started ++ [Logged ERROR (ExecutionFailure (name self) (OtherError cls m))]
                 ++ hook_trace (fun '(a, err) => OnError a err) (on_error self)
                      (args, OtherError cls m))
          end
      end
  end.
Proof.
  unfold run, bind, try_except, call, emit, get, put, ret.
  destruct (validate_input self args) as [ve [[|]|ev]]; simpl;
    rewrite ?app_nil_r; try reflexivity.
  destruct (check_configuration self) as [ce [[|]|ec]]; simpl;
    rewrite ?app_nil_r; try reflexivity.
  rewrite _safe_hook_eq.
  destruct (wait_for (execute self args) (actual_timeout self timeout_arg))
    as [we [result|[msg|cls msg]]]; simpl;
    rewrite _safe_hook_eq; simpl;
    rewrite <- ?app_assoc, ?app_nil_r; simpl; rewrite <- ?app_assoc; reflexivity.
Qed.

Ltac run_view self args timeout_arg :=
  rewrite run_eq; unfold gates_pass in *;
  destruct (validate_input self args) as [ve [[|]|ev]];
  [ destruct (check_configuration self) as [ce [[|]|ec]];
    [ destruct (wait_for (execute self args) (actual_timeout self timeout_arg))
        as [we [result|[msg|cls msg]]] | | ] | | ];
  cbn [fst snd] in *; cbv zeta.

Ltac read_trace :=
  repeat first
    [ rewrite paths_taken_app | rewrite paths_taken_effects | rewrite paths_taken_hook
    | rewrite awaited_app | rewrite awaited_effects | rewrite awaited_hook
    | rewrite executed_app | rewrite executed_effects | rewrite executed_hook
    | rewrite hook_failures_app | rewrite hook_failures_effects
    | rewrite app_nil_r | rewrite app_nil_l ].

(** C1. A call to [run] takes the success path, the timeout path or the
    error path, and only one of them, unless a gate stops it first; the
    instance's [execution_count] goes up by one on the success path and
    stays as it was on every other. *)
Theorem run_execution_count
    (self : BaseSkill) (args : str) (timeout_arg : option Z) (n : nat) :
  let out := run capitalize self args timeout_arg n in
  let deadline := actual_timeout self timeout_arg in
  let finished := snd (wait_for (execute self args) deadline) in
  (gates_pass self args /\
     exists result, finished = Ret result /\ result_of out = Ret result /\
       state_of out = S n /\ paths_taken (trace_of out) = [SuccessPath])
  \/ (gates_pass self args /\
     (exists msg, finished = Raise (TimeoutError msg)) /\
     result_of out = Ret (format_error capitalize self (timeout_message self deadline)) /\
     state_of out = n /\ paths_taken (trace_of out) = [TimeoutPath])
  \/ (gates_pass self args /\
     exists cls msg, finished = Raise (OtherError cls msg) /\
       result_of out = Ret (format_error capitalize self
                              (lit "An unexpected error occurred: " ++ msg)) /\
       state_of out = n /\ paths_taken (trace_of out) = [ErrorPath])
  \/ (snd (validate_input self args) = Ret false /\
     result_of out = Ret (format_error capitalize self (lit "Input is empty or invalid.")) /\
     state_of out = n /\ paths_taken (trace_of out) = [])
  \/ (snd (validate_input self args) = Ret true /\
     snd (check_configuration self) = Ret false /\
     result_of out = Ret (format_error capitalize self
                            (lit "Configuration check failed (Missing API Keys or Setup).")) /\
     state_of out = n /\ paths_taken (trace_of out) = [])
  \/ (exists e,
       (snd (validate_input self args) = Raise e \/
        snd (validate_input self args) = Ret true /\ snd (check_configuration self) = Raise e) /\
       result_of out = Raise e /\ state_of out = n /\ paths_taken (trace_of out) = []).
Proof.
  cbv zeta. run_view self args timeout_arg; unfold result_of, state_of, trace_of; cbn [fst snd].
  - left. split; [auto|]. exists result. repeat split. read_trace. reflexivity.
  - right; left. split; [auto|]. split; [eauto|]. repeat split. read_trace. reflexivity.
  - do 2 right; left. split; [auto|]. exists cls, msg. repeat split. read_trace. reflexivity.
  - do 4 right; left. repeat split. read_trace. reflexivity.
  - do 5 right. exists ec. split; [auto|]. repeat split. read_trace. reflexivity.
  - do 3 right; left. repeat split. read_trace. reflexivity.
  - do 5 right. exists ev. split; [auto|]. repeat split. read_trace. reflexivity.
Qed.

(** C7. When [validate_input] returns false, [run] returns the formatted
    error and does nothing else: the trace holds what the validator itself
    did, no hook is awaited, [execute] is not called and [execution_count]
    is unchanged. The inherited validator returns false exactly on the
    empty string and on strings of whitespace. *)
Theorem run_rejects_invalid_input
    (self : BaseSkill) (args : str) (timeout_arg : option Z) (n : nat) :
  snd (validate_input self args) = Ret false ->
  let out := run capitalize self args timeout_arg n in
  (forall a, snd (default_validate_input a) = Ret false <-> a = [] \/ whitespace_only a) /\
  result_of out = Ret (format_error capitalize self (lit "Input is empty or invalid.")) /\
  state_of out = n /\
  trace_of out = (Effect <$> fst (validate_input self args)) /\
  awaited (trace_of out) = [] /\
  executed (trace_of out) = [].
Proof.
  intros H. cbv zeta. split; [apply default_validate_input_spec|].
  unfold result_of, state_of, trace_of. rewrite run_eq.
  destruct (validate_input self args) as [ve vr]. cbn [fst snd] in *. subst vr.
  cbn [fst snd]. repeat split; read_trace; reflexivity.
Qed.


(** C6, as the code has it. The deadline is the override when one is
    given and it is not zero, and the skill's own [timeout] when the
    override is [None] or zero; [execute] is awaited under that deadline. *)
Theorem run_deadline
    (self : BaseSkill) (args : str) (timeout_arg : option Z) (n : nat) :
  let deadline :=
    match timeout_arg with
    | Some t => if decide (t = 0) then timeout self else t
    | None => timeout self
    end in
  let out := run capitalize self args timeout_arg n in
  actual_timeout self timeout_arg = deadline /\
  (gates_pass self args ->
   match snd (wait_for (execute self args) deadline) with
   | Ret result =>
       result_of out = Ret result /\ paths_taken (trace_of out) = [SuccessPath]
   | Raise (TimeoutError _) =>
       result_of out = Ret (format_error capitalize self (timeout_message self deadline)) /\
       paths_taken (trace_of out) = [TimeoutPath]
   | Raise (OtherError _ msg) =>
       result_of out = Ret (format_error capitalize self
                              (lit "An unexpected error occurred: " ++ msg)) /\
       paths_taken (trace_of out) = [ErrorPath]
   end).
Proof.
  cbv zeta.
  assert (actual_timeout self timeout_arg =
          match timeout_arg with
          | Some t => if decide (t = 0) then timeout self else t
          | None => timeout self
          end) as <-.
  { unfold actual_timeout, py_or. destruct timeout_arg as [t|]; [|reflexivity].
    destruct (Z.eqb_spec t 0), (decide (t = 0)); congruence. }
  split; [reflexivity|]. intros Hg. unfold result_of, trace_of.
  run_view self args timeout_arg; destruct Hg as [Hv Hc]; try discriminate;
    split; try reflexivity; read_trace; reflexivity.
Qed.

(** C8. A hook that raises is logged and swallowed: [_safe_hook] returns
    normally, leaving the state as it was and a warning in the trace, and
    [run] returns what it returns, and counts what it counts, for the
    same skill with hooks that do not raise; the two traces differ by the
    warnings alone. *)
Theorem hook_failures_are_swallowed
    (self : BaseSkill) (args : str) (timeout_arg : option Z) (n : nat) :
  let out := run capitalize self args timeout_arg n in
  (forall (S A : Type) (c : A -> hook_call) (hook : hook_fn A) (a : A) (s : S),
      result_of (_safe_hook c hook a s) = Ret tt /\
      state_of (_safe_hook c hook a s) = s /\
      hook_failures (trace_of (_safe_hook c hook a s)) =
        match hook with
        | Coroutine body =>
            match snd (body a) with
            | Ret _ => []
            | Raise e => [(hook_of (c a), e)]
            end
        | Plain _ => []
        end) /\
  run capitalize (pacify self) args timeout_arg n =
    (result_of out, state_of out,
     filter (fun ev => is_hook_failure ev = false) (trace_of out)).
Proof.
  cbv zeta. split.
  - intros S A c hook a s. rewrite _safe_hook_eq.
    unfold result_of, state_of, trace_of. cbn [fst snd].
    repeat split. apply hook_failures_hook.
  - rewrite (run_eq (pacify self)). unfold result_of, state_of, trace_of.
    cbn [pacify validate_input check_configuration execute on_start on_finish on_error
         name timeout].
    change (actual_timeout (pacify self) timeout_arg) with (actual_timeout self timeout_arg).
    change (timeout_message (pacify self)) with (timeout_message self).
    change (format_error capitalize (pacify self)) with (format_error capitalize self).
    run_view self args timeout_arg;
      rewrite ?filter_app, ?filter_effects, ?filter_hook_trace; reflexivity.
Qed.

(** C10. A hook that a skill defines as a plain function is never
    called by [run]: [_safe_hook] does nothing with it, no call of that
    hook is among those the run awaited, and the run is the same whatever
    the body of the hook is. *)
Theorem sync_hooks_are_skipped
    (self : BaseSkill) (args : str) (timeout_arg : option Z) (n : nat) (h : hook_name) :
  hook_is_coroutine self h = false ->
  (forall (S A : Type) (c : A -> hook_call) (body : A -> eff unit) (a : A) (s : S),
      _safe_hook c (Plain body) a s = (Ret tt, s, [])) /\
  (forall c, c ∈ awaited (trace_of (run capitalize self args timeout_arg n)) -> hook_of c <> h) /\
  run capitalize (hollow self) args timeout_arg n = run capitalize self args timeout_arg n.
Proof.
  intros Hh. split; [reflexivity|]. split.
  - intros c. unfold trace_of. run_view self args timeout_arg;
      read_trace; cbn [awaited omap app]; read_trace;
      rewrite ?elem_of_app; intros Hc;
      repeat match goal with
             | H : _ \/ _ |- _ => destruct H
             | H : _ ∈ (if iscoroutinefunction ?x then _ else _) |- _ =>
                 let E := fresh "E" in destruct (iscoroutinefunction x) eqn:E
             | H : _ ∈ [_] |- _ => apply list_elem_of_singleton in H; subst
             | H : _ ∈ [] |- _ => apply elem_of_nil in H; destruct H
             end;
      cbn [hook_of]; intros <-; cbn [hook_is_coroutine] in Hh; congruence.
  - rewrite (run_eq (hollow self)), (run_eq self).
    cbn [hollow validate_input check_configuration execute on_start on_finish on_error
         name timeout].
    change (actual_timeout (hollow self) timeout_arg) with (actual_timeout self timeout_arg).
    change (timeout_message (hollow self)) with (timeout_message self).
    change (format_error capitalize (hollow self)) with (format_error capitalize self).
    rewrite !hook_trace_hollow.
    destruct (validate_input self args) as [ve [[|]|ev]]; [|reflexivity|reflexivity].
    destruct (check_configuration self) as [ce [[|]|ec]]; [|reflexivity|reflexivity].
    cbv zeta.
    destruct (wait_for (execute self args) (actual_timeout self timeout_arg))
      as [we [result|[msg|cls msg]]]; rewrite ?hook_trace_hollow; reflexivity.
Qed.

End Claims.

(** ** Facts about the dispatcher *)

Lemma dict_set_keys {V} (k : str) (v : V) (d : list (str * V)) :
  fst <$> dict_set k v d = if decide (k ∈ fst <$> d) then fst <$> d else (fst <$> d) ++ [k].
Proof.
  induction d as [|[k' v'] d IH].
  - cbn. rewrite decide_False by apply not_elem_of_nil. reflexivity.
  - cbn [dict_set]. destruct (decide (k = k')) as [->|Hne]; rewrite !fmap_cons; cbn [fst].
    + rewrite decide_True by apply list_elem_of_here. reflexivity.
    + rewrite IH. destruct (decide (k ∈ fst <$> d)) as [H|H].
      * rewrite decide_True by (apply list_elem_of_further, H). reflexivity.
      * rewrite decide_False; [reflexivity|].
        intros [?|?]%elem_of_cons; [congruence | apply H; assumption].
Qed.

Lemma dict_set_NoDup {V} (k : str) (v : V) (d : list (str * V)) :
  NoDup (fst <$> d) -> NoDup (fst <$> dict_set k v d).
Proof.
  intros H. rewrite dict_set_keys. destruct (decide (k ∈ fst <$> d)) as [Hin|Hin]; [exact H|].
  apply NoDup_app. split; [exact H|]. split.
  - intros x Hx Hx'. apply list_elem_of_singleton in Hx'. subst. apply Hin, Hx.
  - apply NoDup_singleton.
Qed.

Lemma _build_intent_map_keys (skills : list (str * skill_obj)) :
  fst <$> _build_intent_map skills = fst <$> skills.
Proof.
  unfold _build_intent_map. induction skills as [|[n skill] skills IH]; simpl; [reflexivity|].
  f_equal. exact IH.
Qed.

Section Registry.

Variable lower : str -> str.

Lemma load_classes_NoDup (module_name : str) (classes : list (res skill_obj))
    (skills : list (str * skill_obj)) :
  NoDup (fst <$> skills) -> NoDup (fst <$> fst (load_classes lower module_name classes skills)).
Proof.
  revert skills. induction classes as [|[skill|e] classes IH]; intros skills H; simpl.
  - exact H.
  - apply IH, dict_set_NoDup, H.
  - exact H.
Qed.

Lemma load_modules_NoDup (modules : list module) (skills : list (str * skill_obj)) :
  NoDup (fst <$> skills) -> NoDup (fst <$> fst (load_modules lower modules skills)).
Proof.
  revert skills. induction modules as [|[module_name [classes|e]] modules IH];
    intros skills H; simpl.
  - exact H.
  - pose proof (load_classes_NoDup module_name classes skills H) as H1.
    destruct (load_classes lower module_name classes skills) as [loaded failure]. cbn [fst] in H1.
    specialize (IH loaded H1). destruct (load_modules lower modules loaded). exact IH.
  - specialize (IH skills H). destruct (load_modules lower modules skills). exact IH.
Qed.

(** The names in the intent map of a brain [__init__] built are pairwise
    different, and in the order of [skill_objects]. *)
Lemma AssistantBrain_init_intent_map {file_text} (dm : DataManager file_text)
    (folder : option (list module)) :
  let self := fst (AssistantBrain_init lower dm folder) in
  NoDup (fst <$> intent_map self) /\
  fst <$> intent_map self = fst <$> skill_objects self.
Proof.
  cbv zeta. unfold AssistantBrain_init, load_skills.
  destruct folder as [modules|]; cbn.
  - pose proof (load_modules_NoDup modules [] (NoDup_nil_2)) as H.
    destruct (load_modules lower modules []) as [skills es]. cbn in *.
    rewrite _build_intent_map_keys. auto.
  - split; [constructor | reflexivity].
Qed.

End Registry.

Lemma any_keyword_in_spec (keywords : list str) (text : str) :
  any_keyword_in keywords text = true <-> matches keywords text.
Proof.
  unfold any_keyword_in, matches, occurs_in. rewrite existsb_exists. split.
  - intros (kw & Hin & Hc). exists kw. split; [apply list_elem_of_In; exact Hin|].
    apply contains_spec. exact Hc.
  - intros (kw & Hin & Hc). exists kw. split; [apply list_elem_of_In; exact Hin|].
    apply contains_spec. exact Hc.
Qed.

(** [detect_intent] returns the name of the first entry, in the order of
    the map, one of whose keywords occurs in the text. *)
Lemma detect_intent_Some (imap : list (str * list str)) (text name : str) :
  detect_intent imap text = Some name <->
  exists before kws after,
    imap = before ++ (name, kws) :: after /\ matches kws text /\
    Forall (fun entry => ~ matches (snd entry) text) before.
Proof.
  induction imap as [|[n kws] imap IH]; simpl.
  - split; [discriminate|]. intros (before & kws & after & H & _). destruct before; discriminate.
  - destruct (any_keyword_in kws text) eqn:E.
    + split.
      * intros [= <-]. exists [], kws, imap. repeat split; [|constructor].
        apply any_keyword_in_spec. exact E.
      * intros ([|[n' kws'] before] & kws0 & after & H & Hm & Hb).
        -- injection H as -> _ _. reflexivity.
        -- injection H as -> -> _. inversion Hb as [|? ? Hn _]; subst. exfalso. apply Hn.
           apply any_keyword_in_spec. exact E.
    + rewrite IH. split.
      * intros (before & kws0 & after & -> & Hm & Hb).
        exists ((n, kws) :: before), kws0, after. repeat split; [exact Hm|].
        constructor; [|exact Hb]. simpl. rewrite <- any_keyword_in_spec, E. discriminate.
      * intros ([|[n' kws'] before] & kws0 & after & H & Hm & Hb).
        -- injection H as _ -> _. apply any_keyword_in_spec in Hm. congruence.
        -- injection H as _ _ ->. inversion Hb; subst. exists before, kws0, after. auto.
Qed.

Lemma detect_intent_None (imap : list (str * list str)) (text : str) :
  detect_intent imap text = None <->
  Forall (fun entry => ~ matches (snd entry) text) imap.
Proof.
  induction imap as [|[n kws] imap IH]; simpl.
  - split; [constructor | reflexivity].
  - destruct (any_keyword_in kws text) eqn:E.
    + split; [discriminate|]. intros H. inversion H as [|? ? Hn _]; subst.
      exfalso. apply Hn. apply any_keyword_in_spec. exact E.
    + rewrite IH. split.
      * intros H. constructor; [|exact H]. simpl. rewrite <- any_keyword_in_spec, E. discriminate.
      * intros H. inversion H; assumption.
Qed.

Lemma detect_intent_app (l1 l2 : list (str * list str)) (text : str) :
  detect_intent (l1 ++ l2) text =
  match detect_intent l1 text with
  | Some n => Some n
  | None => detect_intent l2 text
  end.
Proof.
  induction l1 as [|[n kws] l1 IH]; simpl; [reflexivity|].
  destruct (any_keyword_in kws text); [reflexivity | exact IH].
Qed.

Lemma detect_intent_registered (imap : list (str * list str)) (text name : str) :
  detect_intent imap text = Some name -> name ∈ fst <$> imap.
Proof.
  induction imap as [|[n kws] imap IH]; simpl; [discriminate|].
  destruct (any_keyword_in kws text).
  - intros [= ->]. apply list_elem_of_here.
  - intros H. apply list_elem_of_further, IH, H.
Qed.

Lemma last_n_length {A} (k : nat) (l : list A) : (length (last_n k l) <= k)%nat.
Proof. unfold last_n. rewrite length_drop. lia. Qed.

Lemma last_n_app_last_n {A} (k : nat) (l l' : list A) :
  last_n k (last_n k l ++ l') = last_n k (l ++ l').
Proof.
  unfold last_n. rewrite !length_app, length_drop.
  destruct (le_lt_dec (length l) k) as [Hle|Hlt].
  - replace (length l - k)%nat with 0%nat by lia. rewrite drop_0.
    replace (length l - 0)%nat with (length l) by lia. reflexivity.
  - replace (length l - (length l - k) + length l' - k)%nat with (length l') by lia.
    replace (length l + length l' - k)%nat with ((length l - k) + length l')%nat by lia.
    rewrite <- drop_drop. rewrite (drop_app_le l l') by lia. reflexivity.
Qed.

Lemma last_n_app_ge {A} (k : nat) (l l' : list A) :
  (k <= length l')%nat -> last_n k (l ++ l') = last_n k l'.
Proof.
  intros H. unfold last_n. rewrite length_app.
  replace (length l + length l' - k)%nat with (length l + (length l' - k))%nat by lia.
  apply drop_app_add.
Qed.


Section Dispatcher.

Variable lower : str -> str.
Variable capitalize : str -> str.
Variable file_text : Type.
Variable json_dump : gmap str pyval -> file_text * option exn.
Variable json_load : file_text -> option (gmap str pyval).

Local Abbreviation Brain := (AssistantBrain file_text).
Local Abbreviation route := (route_to_skill capitalize json_dump).
Local Abbreviation process := (process_input lower capitalize json_dump).





(** C2. [process_input] lower-cases the text and [detect_intent] scans the
    intent map in registration order: the intent is the first skill one of
    whose keywords occurs in the lowered text, and none when no skill has
    one. So a skill registered after a skill with a keyword in the text is
    never selected, the earlier one is selected unless a skill registered
    before it has a keyword in the text too, and the dispatcher routes the
    text to the skill selected. *)
Theorem first_registered_skill_wins (self : Brain) (text : str) :
  NoDup (fst <$> intent_map self) ->
  let intent := detect_intent (intent_map self) (lower text) in
  (forall name,
      intent = Some name <->
      exists before kws after,
        intent_map self = before ++ (name, kws) :: after /\
        matches kws (lower text) /\
        Forall (fun entry => ~ matches (snd entry) (lower text)) before) /\
  (intent = None <->
   Forall (fun entry => ~ matches (snd entry) (lower text)) (intent_map self)) /\
  (forall a kws_a b kws_b before between after,
      intent_map self = before ++ (a, kws_a) :: between ++ (b, kws_b) :: after ->
      matches kws_a (lower text) ->
      intent <> Some b /\
      (exists name, intent = Some name /\ name ∈ fst <$> (before ++ [(a, kws_a)])) /\
      (Forall (fun entry => ~ matches (snd entry) (lower text)) before -> intent = Some a)) /\
  (forall name skill,
      intent = Some name -> name <> [] ->
      dict_get name (skill_objects self) = Some skill ->
      process text self =
        let '(r, self', trace) := route name skill text self in
        (r, self', Logged INFO (UserInput text) :: trace)).
Proof.
  intros Hnd. cbv zeta. split; [intros name; apply detect_intent_Some|].
  split; [apply detect_intent_None|]. split.
  - intros a kws_a b kws_b before between after Himap Hm.
    assert (detect_intent (intent_map self) (lower text) =
            match detect_intent before (lower text) with
            | Some n => Some n
            | None => Some a
            end) as Hd.
    { rewrite Himap, detect_intent_app. simpl.
      apply any_keyword_in_spec in Hm. rewrite Hm. reflexivity. }
    assert (exists name, detect_intent (intent_map self) (lower text) = Some name /\
                         name ∈ fst <$> (before ++ [(a, kws_a)])) as (name & Hname & Hin).
    { rewrite Hd. destruct (detect_intent before (lower text)) as [n|] eqn:E.
      - exists n. split; [reflexivity|]. rewrite fmap_app, elem_of_app. left.
        eapply detect_intent_registered, E.
      - exists a. split; [reflexivity|]. rewrite fmap_app, elem_of_app. right.
        apply list_elem_of_here. }
    split; [|split].
    + rewrite Hname. intros [= ->].
      rewrite Himap in Hnd.
      replace (before ++ (a, kws_a) :: between ++ (b, kws_b) :: after)
        with ((before ++ [(a, kws_a)]) ++ between ++ (b, kws_b) :: after) in Hnd
        by (rewrite <- app_assoc; reflexivity).
      rewrite fmap_app in Hnd. apply NoDup_app in Hnd as (_ & Hdisj & _).
      apply (Hdisj b Hin). rewrite fmap_app, elem_of_app. right. apply list_elem_of_here.
    + exists name. auto.
    + intros Hb. rewrite Hd. apply detect_intent_None in Hb. rewrite Hb. reflexivity.
  - intros name skill Hi Hne Hs.
    unfold process_input, bind, emit, get. rewrite Hi.
    destruct name as [|c name]; [congruence|]. cbn [truthy negb]. rewrite Hs.
    destruct (route _ _ _ _) as [[r s'] es]. reflexivity.
Qed.

Lemma save_context_returns (dm : DataManager file_text) :
  result_of (save_context json_dump dm) = Ret tt /\
  context_memory (state_of (save_context json_dump dm)) = context_memory dm /\
  writable (state_of (save_context json_dump dm)) = writable dm.
Proof.
  unfold save_context, try_except, bind, get, put, ret, raise, emit, result_of, state_of.
  destruct dm as [file w m]. cbn [writable context_memory].
  destruct w; [|auto]. destruct (json_dump m) as [written [e|]]; auto.
Qed.

Lemma _update_memory_spec (skill user_input result : str) (self : Brain) :
  history_appendable (memory self) ->
  let out := _update_memory json_dump skill user_input result self in
  result_of out = Ret tt /\
  history_of (memory (state_of out)) =
    Some (last_n 10 (history_or_empty (memory self) ++ [turn user_input result])) /\
  skill_objects (state_of out) = skill_objects self /\
  intent_map (state_of out) = intent_map self.
Proof.
  intros Ha. cbv zeta.
  unfold _update_memory, bind, set_item, get, put, ret, on_data_manager.
  cbn -[lit last_n turn].
  assert (forall v w (m : gmap str pyval),
             <[lit "last_result" := v]> (<[lit "last_action" := w]> m) !! conversation_history
             = m !! conversation_history) as Hlk.
  { intros v w m. rewrite !lookup_insert_ne; [reflexivity| |];
      intros H; vm_compute in H; discriminate. }
  rewrite !Hlk. unfold history_appendable, history_or_empty, history_of, memory in *.
  change (lit "conversation_history") with conversation_history in *.
  destruct (context_memory (data_manager self) !! conversation_history) as [[]|] eqn:E;
    try contradiction; cbn -[lit last_n turn];
    match goal with
    | |- context [save_context json_dump ?dm] =>
        pose proof (save_context_returns dm) as (Hr & Hm & _);
        destruct (save_context json_dump dm) as [[r dm'] es]
    end;
    unfold result_of, state_of in *; cbn [fst snd data_manager context_memory] in *;
    subst r; cbn [skill_objects intent_map data_manager];
    rewrite Hm, lookup_insert_eq; auto.
Qed.

(** [_update_memory] leaves a bounded history whatever it found. *)
Lemma _update_memory_bounded (skill user_input result : str) (self : Brain) :
  history_bounded (memory (state_of (_update_memory json_dump skill user_input result self))).
Proof.
  destruct (memory self !! conversation_history) as [v|] eqn:E.
  2:{ destruct (_update_memory_spec skill user_input result self) as (_ & H & _).
      { unfold history_appendable. change (lit "conversation_history") with conversation_history.
        rewrite E. exact I. }
      unfold history_bounded, history_or_empty. rewrite H. apply last_n_length. }
  destruct v as [| | | | |l|];
    try (unfold _update_memory, bind, set_item, get, put, ret, raise, on_data_manager;
         cbn -[lit last_n turn];
         rewrite !lookup_insert_ne by (intros H; vm_compute in H; discriminate);
         unfold memory in E; rewrite E; cbn -[lit last_n turn];
         unfold history_bounded, history_or_empty, history_of, memory, state_of;
         cbn -[lit last_n turn];
         rewrite !lookup_insert_ne by (intros H; vm_compute in H; discriminate);
         change (lit "conversation_history") with conversation_history;
         rewrite E; simpl; lia).
  destruct (_update_memory_spec skill user_input result self) as (_ & H & _).
  { unfold history_appendable. change (lit "conversation_history") with conversation_history.
    rewrite E. exact I. }
  unfold history_bounded, history_or_empty. rewrite H. apply last_n_length.
Qed.

Lemma history_or_empty_Some (m : gmap str pyval) (l : list pyval) :
  history_of m = Some l -> history_or_empty m = l.
Proof. unfold history_or_empty. intros ->. reflexivity. Qed.

Lemma record_turns_cons (skill user_input result : str) (turns : list (str * str * str))
    (self : Brain) :
  record_turns json_dump ((skill, user_input, result) :: turns) self =
  record_turns json_dump turns
    (state_of (_update_memory json_dump skill user_input result self)).
Proof. reflexivity. Qed.

(** The turns recorded one after the other: the history is the last ten
    of what was there followed by the new entries. *)
Lemma record_turns_history (turns : list (str * str * str)) (self : Brain) :
  history_appendable (memory self) -> turns <> [] ->
  history_of (memory (record_turns json_dump turns self)) =
    Some (last_n 10 (history_or_empty (memory self) ++ (entry_of <$> turns))).
Proof.
  revert self. induction turns as [|[[skill user_input] result] turns IH]; intros self Ha Hne.
  - congruence.
  - destruct (_update_memory_spec skill user_input result self Ha) as (_ & Hh & _).
    rewrite record_turns_cons.
    set (self1 := state_of (_update_memory json_dump skill user_input result self)) in *.
    destruct turns as [|t turns].
    + cbn [record_turns foldl fmap list_fmap]. exact Hh.
    + rewrite IH; [| |discriminate].
      * rewrite (history_or_empty_Some _ _ Hh).
        rewrite last_n_app_last_n, <- app_assoc. reflexivity.
      * unfold history_appendable, history_of in *.
        destruct (memory self1 !! lit "conversation_history") as [[]|]; try discriminate; exact I.
Qed.

Ltac after_update name args :=
  match goal with
  | |- context [_update_memory json_dump name args ?result ?s] =>
      pose proof (_update_memory_bounded name args result s) as Hb;
      pose proof (_update_memory_spec name args result s) as Hspec;
      destruct (_update_memory json_dump name args result s) as [[[[]|e'] s2] es2]
  end.

(** Routing a turn leaves a bounded history bounded. *)
Lemma route_to_skill_bounded (key : str) (skill : skill_obj) (args : str) (self : Brain) :
  history_bounded (memory self) ->
  history_bounded (memory (state_of (route key skill args self))).
Proof.
  intros H. unfold route_to_skill, skill_name, try_except, bind, on_instance, call, emit,
    ret, raise.
  destruct skill as [cls count|cname [lname|] lkws [body|body]]; cbn beta iota.
  - destruct (run capitalize cls args None count) as [[[result|e] count'] es]; [|exact H].
    after_update (name cls) args; exact Hb.
  - destruct (complete (body args)) as [es [result|e]]; cbn [fst snd]; [|exact H].
    after_update lname args; exact Hb.
  - destruct (body args) as [es [result|e]]; cbn [fst snd]; [|exact H].
    after_update lname args; exact Hb.
  - destruct (complete (body args)) as [es [result|e]]; exact H.
  - destruct (body args) as [es [result|e]]; exact H.
Qed.

(** A turn a skill answered is appended to the history, and the oldest
    entry dropped once there are more than ten. *)
Lemma route_to_skill_records (key : str) (cls : BaseSkill) (count : nat) (args result : str)
    (self : Brain) :
  history_appendable (memory self) ->
  result_of (run capitalize cls args None count) = Ret result ->
  result_of (route key (Instance cls count) args self) = Ret result /\
  history_of (memory (state_of (route key (Instance cls count) args self))) =
    Some (last_n 10 (history_or_empty (memory self) ++ [turn args result])).
Proof.
  intros Ha Hr. unfold route_to_skill, skill_name, try_except, bind, on_instance, call,
    emit, ret. unfold result_of in Hr.
  destruct (run capitalize cls args None count) as [[r count'] es]. cbn [fst] in Hr. subst r.
  after_update (name cls) args.
  - destruct (Hspec Ha) as (_ & Hh & _). split; [reflexivity | exact Hh].
  - destruct (Hspec Ha) as (Hres & _). discriminate.
Qed.

Lemma process_input_bounded (text : str) (self : Brain) :
  history_bounded (memory self) ->
  history_bounded (memory (state_of (process text self))).
Proof.
  intros H. unfold process_input, bind, emit, get, ret.
  destruct (detect_intent (intent_map self) (lower text)) as [intent|]; [|exact H].
  destruct (truthy intent); cbn [negb]; [|exact H].
  destruct (dict_get intent (skill_objects self)) as [skill|]; [|exact H].
  pose proof (route_to_skill_bounded intent skill text self H) as Hb.
  destruct (route _ _ _ _) as [[r s'] es]. exact Hb.
Qed.

(** The entry of a turn is a dict that holds the user's text under
    [user], the answer under [assistant], and nothing else. *)
Lemma turn_entry (user_input result : str) :
  exists entry : gmap str pyval,
    turn user_input result = PDict entry /\
    entry !! lit "user" = Some (PStr user_input) /\
    entry !! lit "assistant" = Some (PStr result) /\
    forall k, k <> lit "user" -> k <> lit "assistant" -> entry !! k = None.
Proof.
  unfold turn. eexists. split; [reflexivity|]. split; [apply lookup_insert_eq|]. split.
  - rewrite lookup_insert_ne by (intros H; vm_compute in H; discriminate).
    apply lookup_insert_eq.
  - intros k Hu Ha. rewrite !lookup_insert_ne by congruence. apply lookup_empty.
Qed.

Lemma fifteen_turns_history (self : Brain) (turns : list (str * str * str)) :
  history_appendable (memory self) ->
  length turns = 15%nat ->
  history_of (memory (record_turns json_dump turns self)) = Some (drop 5 (entry_of <$> turns)).
Proof.
  intros Ha Hlen. rewrite record_turns_history; [|exact Ha|intros ->; discriminate].
  rewrite last_n_app_ge by (rewrite length_fmap; lia).
  unfold last_n. rewrite length_fmap, Hlen. reflexivity.
Qed.

(** C3. The history holds ten turns at most at rest: [process_input] keeps
    it so. Each turn a skill answers appends one entry, a dict that holds
    the user's text under [user] and the answer under [assistant] and
    nothing else, and drops the oldest beyond ten; so after fifteen turns
    the history is the last ten of them, oldest first: its entry number
    [i] holds the text and the answer of turn number [5 + i]. *)
Theorem conversation_history_fifo (self : Brain) (turns : list (str * str * str)) :
  history_appendable (memory self) ->
  length turns = 15%nat ->
  (forall text b, history_bounded (memory b) -> history_bounded (memory (state_of (process text b)))) /\
  (forall key cls count args result,
      result_of (run capitalize cls args None count) = Ret result ->
      history_of (memory (state_of (route key (Instance cls count) args self))) =
        Some (last_n 10 (history_or_empty (memory self) ++ [turn args result]))) /\
  (forall skill user_input result,
      history_of (memory (state_of (_update_memory json_dump skill user_input result self))) =
        Some (last_n 10 (history_or_empty (memory self) ++ [turn user_input result]))) /\
  (forall user_input result,
      exists entry : gmap str pyval,
        turn user_input result = PDict entry /\
        entry !! lit "user" = Some (PStr user_input) /\
        entry !! lit "assistant" = Some (PStr result) /\
        forall k, k <> lit "user" -> k <> lit "assistant" -> entry !! k = None) /\
  history_of (memory (record_turns json_dump turns self)) = Some (drop 5 (entry_of <$> turns)) /\
  length (drop 5 (entry_of <$> turns)) = 10%nat /\
  (forall i skill user_input result,
      turns !! (5 + i)%nat = Some (skill, user_input, result) ->
      exists entry : gmap str pyval,
        history_or_empty (memory (record_turns json_dump turns self)) !! i = Some (PDict entry) /\
        entry !! lit "user" = Some (PStr user_input) /\
        entry !! lit "assistant" = Some (PStr result) /\
        forall k, k <> lit "user" -> k <> lit "assistant" -> entry !! k = None).
Proof.
  intros Ha Hlen. split; [intros text b; apply process_input_bounded|].
  split; [intros; eapply route_to_skill_records; eassumption|].
  split; [intros; apply _update_memory_spec; exact Ha|].
  split; [apply turn_entry|].
  split; [apply fifteen_turns_history; assumption|].
  split; [rewrite length_drop, length_fmap; lia|].
  intros i skill user_input result Hi.
  destruct (turn_entry user_input result) as (entry & He & Hentry).
  exists entry. split; [|exact Hentry].
  unfold history_or_empty. rewrite (fifteen_turns_history self turns Ha Hlen).
  cbn [default from_option id]. rewrite lookup_drop, list_lookup_fmap, Hi.
  cbn [fmap option_fmap option_map]. unfold entry_of. cbn [fst snd].
  rewrite He. reflexivity.
Qed.

End Dispatcher.

(** ** Facts about the store *)

Section Store.

Variable file_text : Type.
Variable json_dump : gmap str pyval -> file_text * option exn.
Variable json_load : file_text -> option (gmap str pyval).

(** What is asked of the [json] module: what [dump] wrote in full, [load]
    reads back as the same dict. *)
Hypothesis json_round_trip :
  forall (m : gmap str pyval) (text : file_text),
    json_dump m = (text, None) -> json_load text = Some m.

(** C9. Saving a context memory that [json.dump] can serialize, to a file
    that can be written, and loading it back from that file gives the same
    mapping, be it by [load_context] or in a new [DataManager] on that
    file. *)
Theorem context_round_trip (dm : DataManager file_text) :
  writable dm = true ->
  snd (json_dump (context_memory dm)) = None ->
  let saved := state_of (save_context json_dump dm) in
  result_of (save_context json_dump dm) = Ret tt /\
  trace_of (save_context json_dump dm) = [] /\
  context_memory saved = context_memory dm /\
  load_context json_load saved = (Ret (context_memory dm), saved, []) /\
  context_memory (fst (DataManager_init json_load (context_file saved) (writable saved))) =
    context_memory dm.
Proof.
  intros Hw Hd. cbv zeta.
  unfold save_context, load_context, DataManager_init, load_context,
    try_except, bind, get, put, ret, raise, emit, result_of, state_of, trace_of.
  destruct dm as [file w m]. cbn [writable context_memory] in *. subst w.
  destruct (json_dump m) as [written failure] eqn:E. cbn [snd] in Hd. subst failure.
  cbn. rewrite (json_round_trip m written E). cbn. auto.
Qed.

End Store.


(** ** The claims on concrete skills *)

(** The scenario of the specification: [echo] answers and its count is
    one, [fail] raises, the answer is a formatted error and its count
    stays zero. *)
Example scenario_echo :
  let out := process_input lower_ascii capitalize_ascii dump_plain
               (lit "please echo this") scenario_brain in
  result_of out = Ret (lit "please echo this") /\
  dict_get (lit "echo") (skill_objects (state_of out)) = Some (Instance echo_skill 1).
Proof. vm_compute. split; reflexivity. Qed.

Example scenario_fail :
  let out := process_input lower_ascii capitalize_ascii dump_plain
               (lit "boom") scenario_brain in
  result_of out =
    Ret ([10060%N] ++ lit " **Fail Error:** An unexpected error occurred: boom") /\
  dict_get (lit "fail") (skill_objects (state_of out)) = Some (Instance fail_skill 0).
Proof. vm_compute. split; reflexivity. Qed.

(** C4, where the code breaks it. [load_skills] registers a class that has
    [keywords] and [execute] and no [name] under the name of its module.
    When an input selects it, [skill.name] raises in [route_to_skill]
    after the skill has answered, and raises again in the handler that was
    to turn the failure into an answer: the [AttributeError] leaves
    [process_input], where an input for a skill that has a name is
    answered. *)
Theorem nameless_skill_raises_past_process_input :
  dict_get (lit "plugin") (skill_objects plugin_brain) = Some nameless_skill /\
  detect_intent (intent_map plugin_brain) (lower_ascii (lit "Plug it in")) = Some (lit "plugin") /\
  process_input lower_ascii capitalize_ascii dump_plain (lit "Plug it in") plugin_brain =
    (Raise (OtherError (lit "AttributeError") (lit "'Plugin' object has no attribute 'name'")),
     plugin_brain, [Logged INFO (UserInput (lit "Plug it in"))]) /\
  result_of (process_input lower_ascii capitalize_ascii dump_plain (lit "echo it") plugin_brain)
    = Ret (lit "echo it").
Proof. repeat split; vm_compute; reflexivity. Qed.

(** Fifteen turns through [process_input]: the last ten are kept, the
    sixth first and the fifteenth last, each with the user's text and the
    answer of [echo], which are the same. *)
Example fifteen_turns_through_the_dispatcher :
  history_of (memory (converse lower_ascii capitalize_ascii dump_plain
                        (snd <$> (fst <$> fifteen_turns)) scenario_brain)) =
  Some ((fun text : string =>
           PDict (<[lit "user" := PStr (lit text)]>
                    (<[lit "assistant" := PStr (lit text)]> ∅)))
          <$> ["echo 6"; "echo 7"; "echo 8"; "echo 9"; "echo 10"; "echo 11"; "echo 12";
               "echo 13"; "echo 14"; "echo 15"]%string).
Proof. vm_compute. reflexivity. Qed.


Lemma first_registered_skill_wins_witness :
  NoDup (fst <$> intent_map overlap_brain) /\
  detect_intent (intent_map overlap_brain) (lower_ascii (lit "Please ECHO this"))
    = Some (lit "echo").
Proof.
  assert (NoDup (fst <$> intent_map overlap_brain)) as Hnd
    by apply AssistantBrain_init_intent_map.
  split; [exact Hnd|].
  destruct (first_registered_skill_wins lower_ascii capitalize_ascii _ dump_plain
              overlap_brain (lit "Please ECHO this") Hnd) as (_ & _ & Htie & _).
  destruct (Htie (lit "echo") [lit "echo"] (lit "parrot") [lit "parrot"; lit "echo"]
              [] [] [] eq_refl) as (_ & _ & H).
  - exists (lit "echo"). split; [apply list_elem_of_here|].
    exists (lit "please "), (lit " this"). reflexivity.
  - apply H. constructor.
Defined.

Lemma conversation_history_fifo_witness :
  history_appendable (memory scenario_brain) /\
  length fifteen_turns = 15%nat /\
  history_of (memory (record_turns dump_plain fifteen_turns scenario_brain)) =
    Some (drop 5 (entry_of <$> fifteen_turns)) /\
  exists oldest : gmap str pyval,
    history_or_empty (memory (record_turns dump_plain fifteen_turns scenario_brain)) !! 0%nat
      = Some (PDict oldest) /\
    oldest !! lit "user" = Some (PStr (lit "echo 6")) /\
    oldest !! lit "assistant" = Some (PStr (lit "echo 6")).
Proof.
  assert (history_appendable (memory scenario_brain)) as Ha by exact I.
  assert (length fifteen_turns = 15%nat) as Hl by reflexivity.
  split; [exact Ha|]. split; [exact Hl|].
  destruct (conversation_history_fifo lower_ascii capitalize_ascii _ dump_plain
              scenario_brain fifteen_turns Ha Hl) as (_ & _ & _ & _ & Hh & _ & Hi).
  split; [exact Hh|].
  destruct (Hi 0%nat (lit "echo") (lit "echo 6") (lit "echo 6") eq_refl)
    as (oldest & Ho & Hu & Has & _).
  exists oldest. split; [exact Ho|]. split; [exact Hu | exact Has].
Defined.

Lemma run_rejects_invalid_input_witness :
  snd (validate_input echo_skill (lit "   ")) = Ret false /\
  run capitalize_ascii echo_skill (lit "   ") None 3%nat =
    (Ret ([10060%N] ++ lit " **Echo Error:** Input is empty or invalid."), 3%nat,
     [Effect (LogRecord WARNING (lit "Validation failed: Empty input."))]).
Proof.
  assert (snd (validate_input echo_skill (lit "   ")) = Ret false) as H by reflexivity.
  split; [exact H|].
  destruct (run_rejects_invalid_input capitalize_ascii echo_skill (lit "   ") None 3%nat H)
    as (_ & Hr & Hn & Ht & _).
  destruct (run capitalize_ascii echo_skill (lit "   ") None 3%nat) as [[r n] t].
  unfold result_of, state_of, trace_of in *. cbn [fst snd] in *. subst. reflexivity.
Defined.



(** [asyncio.wait_for] on the clock, under a deadline of fifteen seconds:
    work that is over before the deadline leaves the next suspension that
    much less time; a sleep that ends just before the deadline resumes and
    one that ends on it is cancelled; past the deadline a bare yield
    resumes and any other suspension is cancelled. *)
Example wait_for_on_the_clock :
  let done := Finish (Ret (lit "done")) in
  snd (wait_for (Work 14000 (Sleep 2000 done)) 15) = Raise (TimeoutError []) /\
  snd (wait_for (Work 14000 (Sleep 999 done)) 15) = Ret (lit "done") /\
  snd (wait_for (Sleep 14999 done) 15) = Ret (lit "done") /\
  snd (wait_for (Sleep 15000 done) 15) = Raise (TimeoutError []) /\
  snd (wait_for (Work 20000 done) 15) = Ret (lit "done") /\
  snd (wait_for (Work 20000 (Sleep 0 done)) 15) = Ret (lit "done") /\
  snd (wait_for (Work 20000 (Sleep 1 done)) 15) = Raise (TimeoutError []) /\
  snd (wait_for (Work 20000 (Sleep 0 (Sleep 50 done))) 15) = Raise (TimeoutError []).
Proof. cbv zeta. repeat split; reflexivity. Qed.

(** A skill that sleeps for exactly as long as its deadline is cancelled:
    the timer of the deadline was set first. *)
Example sleep_for_the_whole_deadline_is_cancelled :
  ~ exceeds (execute edge_skill (lit "edge")) (actual_timeout edge_skill None) /\
  paths_taken (trace_of (run capitalize_ascii edge_skill (lit "edge") None 0%nat))
    = [TimeoutPath] /\
  state_of (run capitalize_ascii edge_skill (lit "edge") None 0%nat) = 0%nat.
Proof. split; [vm_compute; discriminate|]. split; vm_compute; reflexivity. Qed.

Lemma run_deadline_witness :
  gates_pass nap_skill (lit "nap") /\
  actual_timeout nap_skill (Some 3) = 3 /\
  actual_timeout nap_skill None = 15 /\
  result_of (run capitalize_ascii nap_skill (lit "nap") (Some 0) 0%nat) = Ret (lit "nap").
Proof.
  assert (gates_pass nap_skill (lit "nap")) as Hg by (split; reflexivity).
  split; [exact Hg|].
  split; [apply (run_deadline capitalize_ascii nap_skill (lit "nap") (Some 3) 0%nat)|].
  split; [apply (run_deadline capitalize_ascii nap_skill (lit "nap") None 0%nat)|].
  destruct (run_deadline capitalize_ascii nap_skill (lit "nap") (Some 0) 0%nat) as [_ H].
  apply (H Hg).
Defined.

(** C6, as stated, fails: with an override of zero the deadline is the
    skill's fifteen seconds, and a skill that answers after one second
    answers, where a deadline of zero would have cancelled it. *)
Lemma zero_override_is_ignored :
  actual_timeout nap_skill (Some 0) <> 0 /\
  snd (wait_for (execute nap_skill (lit "nap")) 0) = Raise (TimeoutError []) /\
  result_of (run capitalize_ascii nap_skill (lit "nap") (Some 0) 0%nat) = Ret (lit "nap") /\
  paths_taken (trace_of (run capitalize_ascii nap_skill (lit "nap") (Some 0) 0%nat)) = [SuccessPath].
Proof.
  split; [vm_compute; discriminate|]. repeat split; vm_compute; reflexivity.
Qed.

(** A hook that raises, on a concrete skill: the call times out all the
    same, and the failure of [on_start] is in the log. *)
Example raising_on_start_is_logged :
  hook_failures (trace_of (run capitalize_ascii slow_skill (lit "slow") None 0%nat)) =
    [(on_start_hook, OtherError (lit "ValueError") (lit "bad start"))] /\
  paths_taken (trace_of (run capitalize_ascii slow_skill (lit "slow") None 0%nat)) = [TimeoutPath].
Proof. vm_compute. split; reflexivity. Qed.

Lemma sync_hooks_are_skipped_witness :
  hook_is_coroutine slow_skill on_error_hook = false /\
  forall c,
    c ∈ awaited (trace_of (run capitalize_ascii slow_skill (lit "slow") None 0%nat)) ->
    hook_of c <> on_error_hook.
Proof.
  assert (hook_is_coroutine slow_skill on_error_hook = false) as H by reflexivity.
  split; [exact H|].
  apply (sync_hooks_are_skipped capitalize_ascii slow_skill (lit "slow") None 0%nat
           on_error_hook H).
Defined.

Lemma context_round_trip_witness :
  let dm := data_manager (record_turns dump_plain fifteen_turns scenario_brain) in
  writable dm = true /\
  snd (dump_plain (context_memory dm)) = None /\
  load_context load_plain (state_of (save_context dump_plain dm)) =
    (Ret (context_memory dm), state_of (save_context dump_plain dm), []).
Proof.
  cbv zeta.
  set (dm := data_manager (record_turns dump_plain fifteen_turns scenario_brain)).
  assert (forall (m text : gmap str pyval), dump_plain m = (text, None) -> load_plain text = Some m)
    as Hrt by (intros m text [= ->]; reflexivity).
  assert (writable dm = true) as Hw by (vm_compute; reflexivity).
  assert (snd (dump_plain (context_memory dm)) = None) as Hd by reflexivity.
  split; [exact Hw|]. split; [exact Hd|].
  apply (context_round_trip _ dump_plain load_plain Hrt dm Hw Hd).
Defined.

(** ** More facts about the lifecycle *)

Lemma lifecycle_app (t1 t2 : list event) : lifecycle (t1 ++ t2) = lifecycle t1 ++ lifecycle t2.
Proof. apply omap_app. Qed.

Lemma lifecycle_effects (es : list effect) : lifecycle (Effect <$> es) = [].
Proof. induction es; simpl; auto. Qed.

Lemma lifecycle_hook {A} (c : A -> hook_call) (hook : hook_fn A) (args : A) :
  lifecycle (hook_trace c hook args) = hook_step c hook args.
Proof.
  unfold hook_trace, hook_step. destruct hook as [body|body]; [|reflexivity].
  pose proof (lifecycle_effects (fst (body args))) as Hes.
  unfold lifecycle in *. simpl. rewrite omap_app, Hes.
  destruct (snd (body args)); reflexivity.
Qed.

Lemma run_until_within (c : coro) (budget : Z) :
  Z.of_N (elapsed c) < budget -> run_until budget c = complete c.
Proof.
  revert budget. induction c as [r|e k IH|ms k IH|ms k IH]; intros budget H; simpl in *.
  - reflexivity.
  - rewrite (IH budget H). reflexivity.
  - apply IH. lia.
  - destruct (Z.ltb_spec (Z.of_N ms) budget); [|lia]. rewrite orb_true_r. apply IH. lia.
Qed.

(** Under a positive deadline that it does not reach, working or
    suspended, a coroutine runs as it runs with no deadline. *)
Lemma wait_for_within (c : coro) (deadline : Z) :
  0 < deadline -> Z.of_N (elapsed c) < 1000 * deadline -> wait_for c deadline = complete c.
Proof.
  unfold wait_for. intros Hd Hx.
  destruct (Z.leb_spec deadline 0); [lia|]. apply run_until_within. lia.
Qed.

(** Under any deadline, a coroutine that raises a timeout error of its
    own ends with a timeout error. *)
Lemma wait_for_inner_timeout (c : coro) (deadline : Z) (inner : str) :
  snd (complete c) = Raise (TimeoutError inner) ->
  exists msg, snd (wait_for c deadline) = Raise (TimeoutError msg).
Proof.
  intros H. unfold wait_for. destruct (deadline <=? 0); [eauto|].
  eapply run_until_inner_timeout, H.
Qed.

Section MoreLifecycle.

Variable capitalize : str -> str.

Ltac run_split self args timeout_arg :=
  rewrite run_eq; unfold gates_pass in *;
  destruct (validate_input self args) as [ve [[|]|ev]];
  [ destruct (check_configuration self) as [ce [[|]|ec]];
    [ destruct (wait_for (execute self args) (actual_timeout self timeout_arg))
        as [we [result|[msg|cls msg]]] | | ] | | ];
  cbn [fst snd] in *; cbv zeta.

Ltac read_steps :=
  repeat first
    [ rewrite lifecycle_app | rewrite lifecycle_effects | rewrite lifecycle_hook
    | rewrite awaited_app | rewrite awaited_effects | rewrite awaited_hook
    | rewrite executed_app | rewrite executed_effects | rewrite executed_hook
    | rewrite paths_taken_app | rewrite paths_taken_effects | rewrite paths_taken_hook
    | rewrite app_nil_r | rewrite app_nil_l ].

(** When [check_configuration] returns false, [run] returns the formatted
    configuration error and does nothing else: no hook is awaited,
    [execute] is not called, [execution_count] is unchanged, and the trace
    holds what the two gate methods themselves did. *)
Theorem run_rejects_unconfigured_skill
    (self : BaseSkill) (args : str) (timeout_arg : option Z) (n : nat) :
  snd (validate_input self args) = Ret true ->
  snd (check_configuration self) = Ret false ->
  let out := run capitalize self args timeout_arg n in
  result_of out =
    Ret (format_error capitalize self
           (lit "Configuration check failed (Missing API Keys or Setup).")) /\
  state_of out = n /\
  trace_of out =
    (Effect <$> fst (validate_input self args)) ++ (Effect <$> fst (check_configuration self)) /\
  awaited (trace_of out) = [] /\
  executed (trace_of out) = [].
Proof.
  intros Hv Hc. cbv zeta. unfold result_of, state_of, trace_of. rewrite run_eq.
  destruct (validate_input self args) as [ve vr]. cbn [fst snd] in *. subst vr.
  destruct (check_configuration self) as [ce cr]. cbn [fst snd] in *. subst cr.
  cbn [fst snd]. repeat split; read_steps; reflexivity.
Qed.

(** The calls of one run come in a fixed order: [on_start], then
    [execute], then [on_finish] when [execute] returned, or [on_error] when
    it timed out or raised, never both; [on_error] gets the exception
    [execute] raised, or a new timeout error that carries the timeout
    message. A call a gate stops makes none of them. *)
Theorem run_lifecycle_order
    (self : BaseSkill) (args : str) (timeout_arg : option Z) (n : nat) :
  let deadline := actual_timeout self timeout_arg in
  lifecycle (trace_of (run capitalize self args timeout_arg n)) =
    match snd (validate_input self args), snd (check_configuration self) with
    | Ret true, Ret true =>
        hook_step OnStart (on_start self) args ++ [Exec args] ++
        match snd (wait_for (execute self args) deadline) with
        | Ret result =>
            hook_step (fun '(a, r) => OnFinish a r) (on_finish self) (args, result)
        | Raise (TimeoutError _) =>
            hook_step (fun '(a, err) => OnError a err) (on_error self)
              (args, TimeoutError (timeout_message self deadline))
        | Raise (OtherError cls msg) =>
            hook_step (fun '(a, err) => OnError a err) (on_error self)
              (args, OtherError cls msg)
        end
    | _, _ => []
    end.
Proof.
  cbv zeta. unfold trace_of.
  run_split self args timeout_arg; read_steps; cbn [lifecycle omap step_of];
    rewrite <- ?app_assoc; reflexivity.
Qed.

(** [run] takes the timeout path whenever [execute] raises a timeout
    error, also one of its own making: a skill whose [execute] raises it
    within the deadline is reported as having exceeded the deadline. *)
Theorem inner_timeout_is_reported_as_deadline
    (self : BaseSkill) (args : str) (timeout_arg : option Z) (n : nat) (inner : str) :
  gates_pass self args ->
  0 < actual_timeout self timeout_arg ->
  ~ exceeds (execute self args) (actual_timeout self timeout_arg) ->
  snd (complete (execute self args)) = Raise (TimeoutError inner) ->
  let out := run capitalize self args timeout_arg n in
  result_of out =
    Ret (format_error capitalize self
           (timeout_message self (actual_timeout self timeout_arg))) /\
  state_of out = n /\
  paths_taken (trace_of out) = [TimeoutPath].
Proof.
  intros Hg Hd Hx Hc. cbv zeta. unfold result_of, state_of, trace_of.
  destruct (wait_for_inner_timeout _ (actual_timeout self timeout_arg) _ Hc) as [late Hw].
  revert Hw.
  run_split self args timeout_arg; intros Hw; destruct Hg as [Hv Hc']; try discriminate.
  repeat split. read_steps. reflexivity.
Qed.


End MoreLifecycle.

(** ** More facts about the dispatcher *)

Lemma dict_replace_keys {V} (k : str) (v : V) (d : list (str * V)) :
  fst <$> dict_replace k v d = fst <$> d.
Proof.
  induction d as [|[k' v'] d IH]; [reflexivity|]. cbn [dict_replace].
  destruct (decide (k = k')); rewrite !fmap_cons; cbn [fst]; [reflexivity|].
  rewrite IH. reflexivity.
Qed.

Lemma dict_get_replace_ne {V} (k k' : str) (v : V) (d : list (str * V)) :
  k <> k' -> dict_get k (dict_replace k' v d) = dict_get k d.
Proof.
  intros Hne. induction d as [|[k0 v0] d IH]; [reflexivity|]. cbn [dict_replace].
  destruct (decide (k' = k0)) as [->|H0]; cbn [dict_get].
  - destruct (decide (k = k0)); [congruence | reflexivity].
  - destruct (decide (k = k0)); [reflexivity | exact IH].
Qed.

Lemma dict_get_replace_eq {V} (k : str) (v v0 : V) (d : list (str * V)) :
  dict_get k d = Some v0 -> dict_get k (dict_replace k v d) = Some v.
Proof.
  induction d as [|[k1 v1] d IH]; [discriminate|]. cbn [dict_get dict_replace].
  destruct (decide (k = k1)) as [->|Hne]; cbn [dict_get].
  - intros _. rewrite decide_True by reflexivity. reflexivity.
  - intros H. rewrite decide_False by exact Hne. apply IH, H.
Qed.

Lemma dict_get_is_Some {V} (k : str) (d : list (str * V)) :
  k ∈ fst <$> d -> is_Some (dict_get k d).
Proof.
  induction d as [|[k' v'] d IH]; [intros H; inversion H|].
  rewrite fmap_cons. cbn [fst dict_get]. intros [->|H]%elem_of_cons.
  - rewrite decide_True by reflexivity. eexists; reflexivity.
  - destruct (decide (k = k')); [eexists; reflexivity | apply IH, H].
Qed.

Lemma occurs_in_join (sep x : str) (parts : list str) :
  x ∈ parts -> occurs_in x (join sep parts).
Proof.
  unfold occurs_in. induction parts as [|p parts IH]; [intros H; inversion H|].
  intros [->|H]%elem_of_cons.
  - destruct parts as [|q parts]; cbn [join].
    + exists [], []. rewrite app_nil_r. reflexivity.
    + exists [], (sep ++ join sep (q :: parts)). reflexivity.
  - destruct (IH H) as (before & after & E).
    destruct parts as [|q parts]; [inversion H|]. cbn [join] in *.
    exists (p ++ sep ++ before), after. rewrite E, <- !app_assoc. reflexivity.
Qed.

Section MoreDispatcher.

Variable lower : str -> str.
Variable capitalize : str -> str.
Variable file_text : Type.
Variable json_dump : gmap str pyval -> file_text * option exn.
Variable json_load : file_text -> option (gmap str pyval).

Local Abbreviation Brain := (AssistantBrain file_text).
Local Abbreviation route := (route_to_skill capitalize json_dump).
Local Abbreviation process := (process_input lower capitalize json_dump).

(** [_update_memory], one case at a time. *)
Lemma _update_memory_eq (skill user_input result : str) (self : Brain) :
  let dm := data_manager self in
  let m1 := with_last_turn skill result (context_memory dm) in
  _update_memory json_dump skill user_input result self =
  match context_memory dm !! conversation_history with
  | Some (PList _) | None =>
      let m2 :=
        <[conversation_history :=
            PList (last_n 10 (history_or_empty (context_memory dm)
                                ++ [turn user_input result]))]> m1 in
      let '(r, dm', es) :=
        save_context json_dump
          {| context_file := context_file dm; writable := writable dm;
             context_memory := m2 |} in
      (r, {| data_manager := dm'; skill_objects := skill_objects self;
             intent_map := intent_map self |}, es)
  | Some other =>
      (Raise (OtherError (lit "AttributeError")
                (lit "'" ++ type_name other ++ lit "' object has no attribute 'append'")),
       {| data_manager := {| context_file := context_file dm; writable := writable dm;
                             context_memory := m1 |};
          skill_objects := skill_objects self; intent_map := intent_map self |}, [])
  end.
Proof.
  cbv zeta. unfold _update_memory, bind, set_item, get, put, ret, raise, on_data_manager,
    with_last_turn.
  cbn -[lit last_n turn].
  rewrite !lookup_insert_ne by (intros H; vm_compute in H; discriminate).
  unfold history_or_empty, history_of.
  change (lit "conversation_history") with conversation_history.
  destruct (context_memory (data_manager self) !! conversation_history) as [[]|] eqn:E;
    cbn -[lit last_n turn]; try reflexivity.
  - rewrite insert_insert_eq.
    destruct (save_context json_dump _) as [[[[]|e] dm'] es]; rewrite ?app_nil_r; reflexivity.
  - destruct (save_context json_dump _) as [[[[]|e] dm'] es]; rewrite ?app_nil_r; reflexivity.
Qed.

Lemma skill_outcome_Ret (skill : skill_obj) (args answer : str) :
  skill_outcome capitalize skill args = Ret answer ->
  skill_result capitalize skill args = Ret answer /\ exists n, name_of skill = Some n.
Proof.
  unfold skill_outcome.
  destruct skill as [cls count|cname [lname|] lkws body]; cbn [name_of];
    destruct (skill_result capitalize _ args); intros [= <-]; eauto.
Qed.

(** [route_to_skill], one case at a time. *)
Lemma route_to_skill_eq (key : str) (skill : skill_obj) (args : str) (self : Brain) :
  route key skill args self =
  let entered := executed_brain capitalize key skill args self in
  match name_of skill with
  | None =>
      (match skill with
       | Legacy cls _ _ _ => Raise (no_name cls)
       | Instance _ _ => Ret []
       end, entered, skill_trace capitalize skill args)
  | Some n =>
      match skill_result capitalize skill args with
      | Raise e =>
          (Ret (internal_error n), entered,
           skill_trace capitalize skill args ++ [Logged ERROR (RoutingError n e)])
      | Ret answer =>
          let '(r, self', es) := _update_memory json_dump n args answer entered in
          match r with
          | Ret _ => (Ret answer, self', skill_trace capitalize skill args ++ es)
          | Raise e =>
              (Ret (internal_error n), self',
               skill_trace capitalize skill args ++ es ++ [Logged ERROR (RoutingError n e)])
          end
      end
  end.
Proof.
  cbv zeta. unfold route_to_skill, skill_name, try_except, bind, on_instance, call, emit, ret,
    raise, skill_result, skill_trace, executed_brain, skill_after, internal_error, no_name,
    result_of, state_of, trace_of.
  destruct skill as [cls count|cname [lname|] lkws [body|body]]; cbn [name_of]; cbn beta iota.
  - destruct (run capitalize cls args None count) as [[[answer|e] count'] es]; cbn [fst snd];
      [|reflexivity].
    destruct (_update_memory json_dump (name cls) args answer _) as [[[[]|e'] s2] es2];
      rewrite ?app_nil_r, <- ?app_assoc; reflexivity.
  - destruct (complete (body args)) as [es [answer|e]]; cbn [fst snd]; [|reflexivity].
    destruct (_update_memory json_dump lname args answer self) as [[[[]|e'] s2] es2];
      rewrite ?app_nil_r, <- ?app_assoc; reflexivity.
  - destruct (body args) as [es [answer|e]]; cbn [fst snd]; [|reflexivity].
    destruct (_update_memory json_dump lname args answer self) as [[[[]|e'] s2] es2];
      rewrite ?app_nil_r, <- ?app_assoc; reflexivity.
  - destruct (complete (body args)) as [es [answer|e]]; cbn [fst snd];
      rewrite ?app_nil_r; reflexivity.
  - destruct (body args) as [es [answer|e]]; cbn [fst snd];
      rewrite ?app_nil_r; reflexivity.
Qed.

Lemma executed_brain_data_manager (key : str) (skill : skill_obj) (args : str) (self : Brain) :
  data_manager (executed_brain capitalize key skill args self) = data_manager self.
Proof. destruct skill; reflexivity. Qed.

Lemma executed_brain_intent_map (key : str) (skill : skill_obj) (args : str) (self : Brain) :
  intent_map (executed_brain capitalize key skill args self) = intent_map self.
Proof. destruct skill; reflexivity. Qed.

Lemma _update_memory_registry (skill user_input result : str) (self : Brain) :
  let s := state_of (_update_memory json_dump skill user_input result self) in
  intent_map s = intent_map self /\ skill_objects s = skill_objects self.
Proof.
  cbv zeta. rewrite _update_memory_eq. cbv zeta. unfold state_of.
  destruct (context_memory (data_manager self) !! conversation_history) as [[]|];
    try (split; reflexivity);
    destruct (save_context json_dump _) as [[r dm'] es]; split; reflexivity.
Qed.

Lemma route_to_skill_registry (key : str) (skill : skill_obj) (args : str) (self : Brain) :
  let s := state_of (route key skill args self) in
  intent_map s = intent_map self /\
  skill_objects s = skill_objects (executed_brain capitalize key skill args self).
Proof.
  cbv zeta. rewrite route_to_skill_eq. cbv zeta.
  destruct (name_of skill) as [n|];
    [|unfold state_of; cbn [fst snd]; rewrite executed_brain_intent_map; split; reflexivity].
  destruct (skill_result capitalize skill args) as [answer|e].
  - pose proof (_update_memory_registry n args answer
                  (executed_brain capitalize key skill args self)) as [Hi Hs].
    cbv zeta in Hi, Hs. unfold state_of in *.
    destruct (_update_memory json_dump _ _ _ _) as [[[[]|e] s'] es]; cbn [fst snd] in *;
      rewrite Hi, Hs, executed_brain_intent_map; split; reflexivity.
  - unfold state_of. cbn [fst snd]. rewrite executed_brain_intent_map. split; reflexivity.
Qed.

(** [process_input], one case at a time. *)
Lemma process_input_eq (text : str) (self : Brain) :
  process text self =
  match detect_intent (intent_map self) (lower text) with
  | None => (Ret (help_message capitalize self), self, [Logged INFO (UserInput text)])
  | Some [] => (Ret (help_message capitalize self), self, [Logged INFO (UserInput text)])
  | Some intent =>
      match dict_get intent (skill_objects self) with
      | None =>
          (Ret ([10060%N] ++ lit " System Error: Intent '" ++ intent
                  ++ lit "' detected, but module is not loaded."), self,
           [Logged INFO (UserInput text)])
      | Some skill =>
          let '(r, self', es) := route intent skill text self in
          (r, self', Logged INFO (UserInput text) :: es)
      end
  end.
Proof.
  unfold process_input, bind, emit, get, ret.
  destruct (detect_intent (intent_map self) (lower text)) as [[|c intent]|]; try reflexivity.
  cbn [truthy negb].
  destruct (dict_get (c :: intent) (skill_objects self)) as [skill|]; [|reflexivity].
  destruct (route _ _ _ _) as [[r s'] es]. reflexivity.
Qed.

(** An input in which no keyword of any registered skill occurs gets the
    help message, which names every registered skill, capitalized; nothing
    else happens: the brain, its memory and the file are as they were. *)
Theorem unmatched_input_gets_help (text : str) (self : Brain) :
  Forall (fun entry => ~ matches (snd entry) (lower text)) (intent_map self) ->
  process text self =
    (Ret (help_message capitalize self), self, [Logged INFO (UserInput text)]) /\
  forall key, key ∈ fst <$> skill_objects self ->
              occurs_in (capitalize key) (help_message capitalize self).
Proof.
  intros H. split.
  - rewrite process_input_eq. apply detect_intent_None in H. rewrite H. reflexivity.
  - intros key Hk. unfold help_message.
    destruct (occurs_in_join (lit ", ") (capitalize key) (capitalize <$> (fst <$> skill_objects self)))
      as (before & after & E).
    { apply list_elem_of_fmap. exists key. split; [reflexivity | exact Hk]. }
    exists ([129300%N] ++ lit " I didn't understand that. I can currently help with: **"
              ++ before), (after ++ lit "**").
    rewrite E. rewrite <- !app_assoc. reflexivity.
Qed.

(** Handling an input changes one skill object at most: the intent map,
    the names of the registry and their order stay, every skill but the
    one selected is untouched, and the one selected is the same skill
    with the count its run left. *)
Theorem dispatch_touches_one_skill (text : str) (self : Brain) :
  let s := state_of (process text self) in
  intent_map s = intent_map self /\
  fst <$> skill_objects s = fst <$> skill_objects self /\
  (forall key, detect_intent (intent_map self) (lower text) <> Some key ->
               dict_get key (skill_objects s) = dict_get key (skill_objects self)) /\
  (forall key skill,
      detect_intent (intent_map self) (lower text) = Some key -> key <> [] ->
      dict_get key (skill_objects self) = Some skill ->
      dict_get key (skill_objects s) = Some (skill_after capitalize skill text)).
Proof.
  cbv zeta. rewrite process_input_eq.
  destruct (detect_intent (intent_map self) (lower text)) as [[|c intent]|] eqn:E;
    try (unfold state_of; cbn [fst snd]; repeat split; auto; intros; congruence).
  destruct (dict_get (c :: intent) (skill_objects self)) as [skill|] eqn:Hs;
    try (unfold state_of; cbn [fst snd]; repeat split; auto; intros; congruence).
  pose proof (route_to_skill_registry (c :: intent) skill text self) as [Hi Ho].
  cbv zeta in Hi, Ho. unfold state_of in *.
  destruct (route _ _ _ _) as [[r s'] es]. cbn [fst snd] in *. rewrite Hi, Ho.
  split; [reflexivity|].
  destruct skill as [cls count|cname lname lkws body]; cbn [executed_brain skill_objects].
  - split; [apply dict_replace_keys|]. split.
    + intros key Hk. apply dict_get_replace_ne. congruence.
    + intros key skill [= <-] _ Hk. rewrite Hs in Hk. injection Hk as <-.
      eapply dict_get_replace_eq, Hs.
  - split; [reflexivity|]. split; [reflexivity|].
    intros key skill [= <-] _ Hk. rewrite Hs in Hk. injection Hk as <-. exact Hs.
Qed.

Lemma save_context_file (dm : DataManager file_text) :
  context_file (state_of (save_context json_dump dm)) =
    (if writable dm then Some (fst (json_dump (context_memory dm))) else context_file dm) /\
  trace_of (save_context json_dump dm) =
    (if writable dm
     then match snd (json_dump (context_memory dm)) with
          | None => []
          | Some e => [Logged ERROR (SaveFailed e)]
          end
     else [Logged ERROR (SaveFailed (OtherError (lit "PermissionError")
                                       (lit "Permission denied")))]).
Proof.
  unfold save_context, try_except, bind, get, put, ret, raise, emit, state_of, trace_of.
  destruct dm as [file w m]. cbn [writable context_memory context_file].
  destruct w; [|split; reflexivity].
  destruct (json_dump m) as [written [e|]]; split; reflexivity.
Qed.

Lemma history_appendable_lookup (m : gmap str pyval) :
  history_appendable m ->
  m !! conversation_history = None \/ exists l, m !! conversation_history = Some (PList l).
Proof.
  unfold history_appendable. change (lit "conversation_history") with conversation_history.
  destruct (m !! conversation_history) as [[]|]; try contradiction; eauto.
Qed.

(** Recording a turn on a history that is a list, or not there yet:
    [_update_memory] returns normally, the name of the skill and the
    answer become the last action and the last result, the newest entry
    of the history is a dict that holds the user's text under [user] and
    the answer under [assistant] and nothing else, no other key of the
    memory changes, and the memory is saved to the file at once. *)
Theorem update_memory_records_the_turn
    (skill user_input answer : str) (self : Brain) :
  history_appendable (memory self) ->
  let out := _update_memory json_dump skill user_input answer self in
  let m := memory (state_of out) in
  result_of out = Ret tt /\
  m !! lit "last_action" = Some (PStr skill) /\
  m !! lit "last_result" = Some (PStr answer) /\
  (exists entry : gmap str pyval,
      history_of m = Some (last_n 10 (history_or_empty (memory self) ++ [PDict entry])) /\
      entry !! lit "user" = Some (PStr user_input) /\
      entry !! lit "assistant" = Some (PStr answer) /\
      forall k, k <> lit "user" -> k <> lit "assistant" -> entry !! k = None) /\
  (forall k, k <> lit "last_action" -> k <> lit "last_result" ->
             k <> lit "conversation_history" -> m !! k = memory self !! k) /\
  context_file (data_manager (state_of out)) =
    (if writable (data_manager self) then Some (fst (json_dump m))
     else context_file (data_manager self)).
Proof.
  intros Ha. cbv zeta. rewrite _update_memory_eq. cbv zeta. unfold memory in *.
  destruct (turn_entry user_input answer) as (entry & He & Hentry). rewrite He.
  assert (forall m2 : gmap str pyval,
            let dm2 := {| context_file := context_file (data_manager self);
                          writable := writable (data_manager self);
                          context_memory := m2 |} in
            result_of (save_context json_dump dm2) = Ret tt /\
            context_memory (state_of (save_context json_dump dm2)) = m2 /\
            context_file (state_of (save_context json_dump dm2)) =
              (if writable (data_manager self) then Some (fst (json_dump m2))
               else context_file (data_manager self))) as Hsave.
  { intros m2. cbv zeta.
    destruct (save_context_returns _ json_dump
                {| context_file := context_file (data_manager self);
                   writable := writable (data_manager self); context_memory := m2 |})
      as (H1 & H2 & _).
    destruct (save_context_file
                {| context_file := context_file (data_manager self);
                   writable := writable (data_manager self); context_memory := m2 |})
      as (H3 & _).
    split; [assumption|]. split; assumption. }
  destruct (history_appendable_lookup _ Ha) as [E|[l E]]; rewrite E;
    match goal with
    | |- context [save_context json_dump ?dm] =>
        destruct (Hsave (context_memory dm)) as (Hr & Hm & Hf);
        cbn [context_memory] in Hr, Hm, Hf;
        destruct (save_context json_dump dm) as [[r dm'] es]
    end;
    unfold result_of, state_of, history_of, with_last_turn in *; cbn [fst snd] in *;
    subst r; cbn [fst snd data_manager]; rewrite Hm, Hf;
    change (lit "conversation_history") with conversation_history;
    (split; [reflexivity|]);
    (split; [rewrite lookup_insert_ne by (intros H; vm_compute in H; discriminate);
             rewrite lookup_insert_ne by (intros H; vm_compute in H; discriminate);
             apply lookup_insert_eq|]);
    (split; [rewrite lookup_insert_ne by (intros H; vm_compute in H; discriminate);
             apply lookup_insert_eq|]);
    (split; [exists entry; split; [rewrite lookup_insert_eq; reflexivity | exact Hentry]|]);
    (split; [|reflexivity]);
    intros k H1 H2 H3; rewrite !lookup_insert_ne by congruence; reflexivity.
Qed.

(** When executing a skill raises (a gate method of the skill, or the
    [execute] of a skill without [run]) and the skill has a [name], the
    answer of [route_to_skill] is the internal-error string that names
    the skill, and the exception is in the log under that name. A skill
    without [name] gets no answer: [route_to_skill] raises the
    [AttributeError] of [skill.name], whether its [execute] returned or
    raised. *)
Theorem skill_failure_is_answered
    (key : str) (skill : skill_obj) (args n : str) (e : exn) (self : Brain) :
  name_of skill = Some n ->
  skill_result capitalize skill args = Raise e ->
  let out := route key skill args self in
  result_of out =
    Ret ([10060%N] ++ lit " An internal error occurred while processing via " ++ n ++ lit ".") /\
  Logged ERROR (RoutingError n e) ∈ trace_of out /\
  (forall cls kws body,
      result_of (route key (Legacy cls None kws body) args self) =
        Raise (OtherError (lit "AttributeError")
                 (lit "'" ++ cls ++ lit "' object has no attribute 'name'"))).
Proof.
  intros Hn Ho. cbv zeta. rewrite route_to_skill_eq, Hn, Ho. cbv zeta.
  unfold result_of, trace_of. cbn [fst snd]. split; [reflexivity|]. split.
  - rewrite elem_of_app. right. apply list_elem_of_here.
  - intros cls kws body. rewrite route_to_skill_eq. reflexivity.
Qed.

(** When the stored history is not a list, [_update_memory] raises the
    [AttributeError] of the failed [append], after it has set the last
    action and the last result: the history stays as it was, nothing is
    written to the file, and the registry is untouched. *)
Theorem update_memory_fails_on_a_non_list_history
    (skill user_input answer : str) (self : Brain) :
  ~ history_appendable (memory self) ->
  let out := _update_memory json_dump skill user_input answer self in
  (exists stored,
      memory self !! conversation_history = Some stored /\
      result_of out =
        Raise (OtherError (lit "AttributeError")
                 (lit "'" ++ type_name stored ++ lit "' object has no attribute 'append'"))) /\
  memory (state_of out) = with_last_turn skill answer (memory self) /\
  memory (state_of out) !! lit "last_action" = Some (PStr skill) /\
  memory (state_of out) !! lit "last_result" = Some (PStr answer) /\
  memory (state_of out) !! conversation_history = memory self !! conversation_history /\
  context_file (data_manager (state_of out)) = context_file (data_manager self) /\
  trace_of out = [] /\
  skill_objects (state_of out) = skill_objects self.
Proof.
  intros Ha. cbv zeta. rewrite _update_memory_eq. cbv zeta.
  unfold history_appendable, memory in *.
  change (lit "conversation_history") with conversation_history in Ha.
  destruct (context_memory (data_manager self) !! conversation_history) as [[]|] eqn:E;
    try (exfalso; apply Ha; exact I);
    unfold result_of, state_of, trace_of;
    cbn [fst snd data_manager context_memory context_file skill_objects];
    (split; [eexists; split; reflexivity|]);
    (split; [reflexivity|]);
    unfold with_last_turn;
    (split; [rewrite lookup_insert_ne by (intros H; vm_compute in H; discriminate);
             apply lookup_insert_eq|]);
    (split; [apply lookup_insert_eq|]);
    (split; [rewrite !lookup_insert_ne by (intros H; vm_compute in H; discriminate);
             exact E|]);
    repeat split.
Qed.

Lemma process_input_names (text : str) (self : Brain) :
  intent_map (state_of (process text self)) = intent_map self /\
  fst <$> skill_objects (state_of (process text self)) = fst <$> skill_objects self.
Proof.
  rewrite process_input_eq.
  destruct (detect_intent (intent_map self) (lower text)) as [[|c intent]|];
    try (split; reflexivity).
  destruct (dict_get (c :: intent) (skill_objects self)) as [skill|]; try (split; reflexivity).
  pose proof (route_to_skill_registry (c :: intent) skill text self) as [Hi Ho].
  cbv zeta in Hi, Ho. unfold state_of in *.
  destruct (route _ _ _ _) as [[r s'] es]. cbn [fst snd] in *. rewrite Hi, Ho.
  split; [reflexivity|]. destruct skill; cbn [executed_brain skill_objects];
    [apply dict_replace_keys | reflexivity].
Qed.

Lemma converse_names (texts : list str) (self : Brain) :
  intent_map (converse lower capitalize json_dump texts self) = intent_map self /\
  fst <$> skill_objects (converse lower capitalize json_dump texts self)
    = fst <$> skill_objects self.
Proof.
  revert self. induction texts as [|text texts IH]; intros self; [split; reflexivity|].
  unfold converse in *. cbn [foldl].
  destruct (IH (state_of (process text self))) as [Hi Hk].
  destruct (process_input_names text self) as [Hi' Hk'].
  rewrite Hi, Hk, Hi', Hk'. split; reflexivity.
Qed.

(** In a brain [__init__] built, and after any inputs it handled since,
    the intent map and the registry name the same skills, each once: an
    intent [detect_intent] finds is a skill the registry holds, so the
    answer that a module is not loaded is never due. *)
Theorem detected_intents_resolve
    (dm : DataManager file_text) (folder : option (list module)) (texts : list str)
    (text intent : str) :
  let self := converse lower capitalize json_dump texts
                (fst (AssistantBrain_init lower dm folder)) in
  registry_consistent self /\
  NoDup (fst <$> intent_map self) /\
  (detect_intent (intent_map self) (lower text) = Some intent ->
   is_Some (dict_get intent (skill_objects self))).
Proof.
  cbv zeta.
  destruct (converse_names texts (fst (AssistantBrain_init lower dm folder))) as [Hi Hk].
  destruct (AssistantBrain_init_intent_map lower dm folder) as [Hnd Hc]. cbv zeta in Hnd, Hc.
  assert (registry_consistent (converse lower capitalize json_dump texts
                                 (fst (AssistantBrain_init lower dm folder)))) as Hrc.
  { unfold registry_consistent. rewrite Hi, Hk. exact Hc. }
  split; [exact Hrc|]. split; [rewrite Hi; exact Hnd|].
  intros Hd. apply dict_get_is_Some. rewrite <- Hrc.
  eapply detect_intent_registered, Hd.
Qed.

Lemma init_after_save (dm : DataManager file_text) :
  (forall (m : gmap str pyval) (text : file_text),
      json_dump m = (text, None) -> json_load text = Some m) ->
  writable dm = true ->
  snd (json_dump (context_memory dm)) = None ->
  let saved := state_of (save_context json_dump dm) in
  context_memory saved = context_memory dm /\
  context_memory (fst (DataManager_init json_load (context_file saved) (writable saved)))
    = context_memory dm.
Proof.
  intros Hrt Hw Hd. cbv zeta.
  unfold save_context, DataManager_init, load_context,
    try_except, bind, get, put, ret, raise, emit, state_of.
  destruct dm as [file w m]. cbn [writable context_memory] in *. subst w.
  destruct (json_dump m) as [written failure] eqn:E. cbn [snd] in Hd. subst failure.
  cbn. rewrite (Hrt m written E). cbn. auto.
Qed.

Lemma route_answered_data_manager
    (key : str) (skill : skill_obj) (args answer : str) (self : Brain) :
  history_appendable (memory self) ->
  skill_outcome capitalize skill args = Ret answer ->
  data_manager (state_of (route key skill args self)) =
    state_of (save_context json_dump
                {| context_file := context_file (data_manager self);
                   writable := writable (data_manager self);
                   context_memory :=
                     <[conversation_history :=
                         PList (last_n 10 (history_or_empty (memory self)
                                             ++ [turn args answer]))]>
                       (with_last_turn (default [] (name_of skill)) answer (memory self)) |}).
Proof.
  intros Ha Ho. destruct (skill_outcome_Ret _ _ _ Ho) as (Hres & n & Hn).
  rewrite route_to_skill_eq, Hn, Hres. cbv zeta. cbn [default from_option id].
  rewrite _update_memory_eq. cbv zeta.
  rewrite !executed_brain_data_manager, executed_brain_intent_map. unfold memory in *.
  destruct (history_appendable_lookup _ Ha) as [E|[l E]]; rewrite E;
    match goal with
    | |- context [save_context json_dump ?dm] =>
        pose proof (save_context_returns _ json_dump dm) as (Hr & _);
        destruct (save_context json_dump dm) as [[r dm'] es]
    end;
    unfold result_of, state_of in *; cbn [fst snd] in *; subst r; reflexivity.
Qed.

(** A turn a skill answered is on disk when [route_to_skill] returns: if
    the file can be written and [json.dump] serializes the memory, a new
    [DataManager] on that file starts with the memory as the turn left it,
    the new entry of the history included. *)
Theorem recorded_turn_survives_restart
    (key : str) (skill : skill_obj) (args answer : str) (self : Brain) :
  (forall (m : gmap str pyval) (text : file_text),
      json_dump m = (text, None) -> json_load text = Some m) ->
  history_appendable (memory self) ->
  writable (data_manager self) = true ->
  skill_outcome capitalize skill args = Ret answer ->
  let dm' := data_manager (state_of (route key skill args self)) in
  snd (json_dump (context_memory dm')) = None ->
  let restarted := fst (DataManager_init json_load (context_file dm') (writable dm')) in
  context_memory restarted = context_memory dm' /\
  history_of (context_memory restarted) =
    Some (last_n 10 (history_or_empty (memory self) ++ [turn args answer])).
Proof.
  intros Hrt Ha Hw Ho. cbv zeta. rewrite (route_answered_data_manager _ _ _ _ _ Ha Ho).
  set (dm2 := {| context_file := context_file (data_manager self);
                 writable := writable (data_manager self);
                 context_memory := _ |}).
  intros Hd.
  destruct (save_context_returns _ json_dump dm2) as (_ & Hm & _).
  rewrite Hm in Hd.
  destruct (init_after_save dm2 Hrt Hw Hd) as [_ Hinit]. cbv zeta in Hinit.
  rewrite Hinit, Hm. split; [reflexivity|].
  unfold dm2, history_of. cbn [context_memory]. rewrite lookup_insert_eq. reflexivity.
Qed.

End MoreDispatcher.

(** ** More facts about the registry *)

Lemma dict_get_set {V} (k k' : str) (v : V) (d : list (str * V)) :
  dict_get k (dict_set k' v d) = if decide (k = k') then Some v else dict_get k d.
Proof.
  induction d as [|[k0 v0] d IH]; cbn [dict_set dict_get].
  - destruct (decide (k = k')); reflexivity.
  - destruct (decide (k' = k0)) as [->|H0]; cbn [dict_get].
    + destruct (decide (k = k0)); reflexivity.
    + destruct (decide (k = k0)) as [->|H1].
      * rewrite decide_False by congruence. reflexivity.
      * exact IH.
Qed.

Lemma length_dict_set {V} (k : str) (v : V) (d : list (str * V)) :
  (length (dict_set k v d) <= S (length d))%nat.
Proof.
  induction d as [|[k0 v0] d IH]; cbn [dict_set]; [simpl; lia|].
  destruct (decide (k = k0)); simpl in *; lia.
Qed.

Lemma NoDup_keys_entry {V} (d : list (str * V)) (k : str) (v v' : V) :
  NoDup (fst <$> d) -> (k, v) ∈ d -> (k, v') ∈ d -> v = v'.
Proof.
  induction d as [|[k0 v0] d IH]; [intros _ H; inversion H|].
  rewrite fmap_cons. cbn [fst]. intros [Hn Hd]%NoDup_cons H1 H2.
  apply elem_of_cons in H1 as [[= -> ->]|H1]; apply elem_of_cons in H2 as [[= ?]|H2]; subst.
  - reflexivity.
  - exfalso. apply Hn. apply list_elem_of_fmap. exists (k0, v'). split; [reflexivity|exact H2].
  - exfalso. apply Hn. apply list_elem_of_fmap. exists (k0, v). split; [reflexivity|exact H1].
  - exact (IH Hd H1 H2).
Qed.

Section MoreRegistry.

Variable lower : str -> str.

Lemma load_modules_app (a b : list module) (skills : list (str * skill_obj)) :
  load_modules lower (a ++ b) skills =
  let '(s1, e1) := load_modules lower a skills in
  let '(s2, e2) := load_modules lower b s1 in
  (s2, e1 ++ e2).
Proof.
  revert skills. induction a as [|[n [classes|e]] a IH]; intros skills; cbn [app load_modules].
  - destruct (load_modules lower b skills). reflexivity.
  - destruct (load_classes lower n classes skills) as [loaded failure].
    rewrite IH. destruct (load_modules lower a loaded) as [s1 e1].
    destruct (load_modules lower b s1) as [s2 e2]. destruct failure; reflexivity.
  - rewrite IH. destruct (load_modules lower a skills) as [s1 e1].
    destruct (load_modules lower b s1) as [s2 e2]. reflexivity.
Qed.

Lemma load_classes_app (module_name : str) (good rest : list (res skill_obj))
    (skills : list (str * skill_obj)) :
  Forall (fun c => exists s, c = Ret s) good ->
  load_classes lower module_name (good ++ rest) skills =
  load_classes lower module_name rest (fst (load_classes lower module_name good skills)).
Proof.
  revert skills. induction good as [|c good IH]; intros skills H; [reflexivity|].
  inversion H as [|? ? [s ->] Hgood]; subst. cbn [app load_classes]. apply IH, Hgood.
Qed.

Lemma load_classes_all_good (module_name : str) (good : list (res skill_obj))
    (skills : list (str * skill_obj)) :
  Forall (fun c => exists s, c = Ret s) good ->
  snd (load_classes lower module_name good skills) = None.
Proof.
  revert skills. induction good as [|c good IH]; intros skills H; [reflexivity|].
  inversion H as [|? ? [s ->] Hgood]; subst. cbn [load_classes]. apply IH, Hgood.
Qed.

(** A module that cannot be imported is logged and skipped: the registry
    is the one the other modules give. A class that cannot be instantiated
    is logged and ends its module: the registry is the one the modules
    give with only the classes before it in that module, so the classes
    after it in that module are not registered. *)
Theorem failed_loads_are_skipped
    (before after : list module) (module_name : str) (e : exn)
    (good rest : list (res skill_obj)) :
  Forall (fun c => exists s, c = Ret s) good ->
  (fst (load_skills lower (Some (before ++ (module_name, Raise e) :: after)))
     = fst (load_skills lower (Some (before ++ after))) /\
   Logged ERROR (LoadFailed module_name e)
     ∈ snd (load_skills lower (Some (before ++ (module_name, Raise e) :: after)))) /\
  (fst (load_skills lower (Some (before ++ (module_name, Ret (good ++ Raise e :: rest)) :: after)))
     = fst (load_skills lower (Some (before ++ (module_name, Ret good) :: after))) /\
   Logged ERROR (LoadFailed module_name e)
     ∈ snd (load_skills lower
              (Some (before ++ (module_name, Ret (good ++ Raise e :: rest)) :: after)))).
Proof.
  intros Hgood. unfold load_skills. rewrite !load_modules_app.
  destruct (load_modules lower before []) as [s1 e1]. cbn [load_modules].
  rewrite (load_classes_app module_name good (Raise e :: rest) s1 Hgood). cbn [load_classes].
  pose proof (load_classes_all_good module_name good s1 Hgood) as Hnone.
  destruct (load_classes lower module_name good s1) as [loaded failure].
  cbn [fst snd] in *. subst failure.
  destruct (load_modules lower after s1) as [s2 e2].
  destruct (load_modules lower after loaded) as [s3 e3]. cbn [fst snd].
  repeat split; rewrite !elem_of_app; left; right; apply list_elem_of_here.
Qed.

Lemma load_classes_spec (module_name : str) (classes : list (res skill_obj))
    (skills : list (str * skill_obj)) :
  let loaded := fst (load_classes lower module_name classes skills) in
  (forall key skill, dict_get key loaded = Some skill ->
      dict_get key skills = Some skill \/
      (skill ∈ instantiated_classes classes /\ key = registry_key lower module_name skill)) /\
  (forall key, is_Some (dict_get key skills) -> is_Some (dict_get key loaded)) /\
  (forall skill, skill ∈ instantiated_classes classes ->
      is_Some (dict_get (registry_key lower module_name skill) loaded)) /\
  (length loaded <= length skills + length (instantiated_classes classes))%nat.
Proof.
  cbv zeta. revert skills.
  induction classes as [|[s|e] classes IH]; intros skills; cbn [load_classes instantiated_classes fst].
  - repeat split; auto; [intros skill H; inversion H | simpl; lia].
  - destruct (IH (dict_set (registry_key lower module_name s) s skills)) as (H1 & H2 & H3 & H4).
    repeat split.
    + intros key skill Hk. destruct (H1 key skill Hk) as [Hs|[Hin ->]].
      * rewrite dict_get_set in Hs.
        destruct (decide (key = registry_key lower module_name s)) as [->|Hne].
        -- injection Hs as <-. right. split; [apply list_elem_of_here | reflexivity].
        -- left. exact Hs.
      * right. split; [apply list_elem_of_further, Hin | reflexivity].
    + intros key Hk. apply H2. rewrite dict_get_set.
      destruct (decide (key = registry_key lower module_name s));
        [eexists; reflexivity | exact Hk].
    + intros skill [->|Hin]%elem_of_cons; [|apply H3, Hin].
      apply H2. rewrite dict_get_set, decide_True by reflexivity. eexists; reflexivity.
    + pose proof (length_dict_set (registry_key lower module_name s) s skills). simpl. lia.
  - repeat split; auto; [intros skill H; inversion H | simpl; lia].
Qed.

Lemma load_modules_spec (modules : list module) (skills : list (str * skill_obj)) :
  let loaded := fst (load_modules lower modules skills) in
  (forall key skill, dict_get key loaded = Some skill ->
      dict_get key skills = Some skill \/
      exists module_name,
        (module_name, skill) ∈ instantiated modules /\
        key = registry_key lower module_name skill) /\
  (forall key, is_Some (dict_get key skills) -> is_Some (dict_get key loaded)) /\
  (forall module_name skill, (module_name, skill) ∈ instantiated modules ->
      is_Some (dict_get (registry_key lower module_name skill) loaded)) /\
  (length loaded <= length skills + length (instantiated modules))%nat.
Proof.
  cbv zeta. revert skills.
  induction modules as [|[n [classes|e]] modules IH]; intros skills;
    unfold instantiated in *; cbn [load_modules mbind list_bind fst snd].
  - repeat split; auto; [intros ? skill H; inversion H | simpl; lia].
  - pose proof (load_classes_spec n classes skills) as (C1 & C2 & C3 & C4). cbv zeta in *.
    destruct (load_classes lower n classes skills) as [loaded failure]. cbn [fst] in *.
    destruct (IH loaded) as (H1 & H2 & H3 & H4).
    destruct (load_modules lower modules loaded) as [skills' es]. cbn [fst] in *.
    repeat split.
    + intros key skill Hk. destruct (H1 key skill Hk) as [Hs|(m & Hin & ->)].
      * destruct (C1 key skill Hs) as [?|[Hin ->]]; [left; assumption|].
        right. exists n. split; [|reflexivity]. rewrite elem_of_app. left.
        apply list_elem_of_fmap. exists skill. split; [reflexivity | exact Hin].
      * right. exists m. split; [|reflexivity]. rewrite elem_of_app. right. exact Hin.
    + intros key Hk. apply H2, C2, Hk.
    + intros m skill [Hin|Hin]%elem_of_app; [|apply H3, Hin].
      apply list_elem_of_fmap in Hin as (skill' & [= -> ->] & Hin). apply H2, C3, Hin.
    + rewrite length_app, length_fmap. lia.
  - destruct (IH skills) as (H1 & H2 & H3 & H4).
    destruct (load_modules lower modules skills) as [skills' es]. cbn [fst app] in *.
    repeat split; auto.
Qed.

(** The registry holds the skills that were instantiated, each under the
    key [getattr(skill_instance, "name", name).lower()]: its lower-cased
    [name] when it has one, the lower-cased name of its module when it
    has none. Every entry is such a skill, every such skill's key has an
    entry (of the last skill instantiated with that key), and there are
    no more entries than skills instantiated. *)
Theorem registry_holds_instantiated_skills (modules : list module) :
  let skills := fst (load_skills lower (Some modules)) in
  (forall key skill, dict_get key skills = Some skill ->
      exists module_name,
        (module_name, skill) ∈ instantiated modules /\
        key = lower (match name_of skill with
                     | Some skill_name => skill_name
                     | None => module_name
                     end)) /\
  (forall module_name skill, (module_name, skill) ∈ instantiated modules ->
      is_Some (dict_get (lower (match name_of skill with
                                | Some skill_name => skill_name
                                | None => module_name
                                end)) skills)) /\
  (forall module_name cls count,
      registry_key lower module_name (Instance cls count) = lower (name cls)) /\
  (forall module_name cls kws body,
      registry_key lower module_name (Legacy cls None kws body) = lower module_name) /\
  (length skills <= length (instantiated modules))%nat.
Proof.
  cbv zeta. unfold load_skills.
  pose proof (load_modules_spec modules []) as (H1 & _ & H3 & H4). cbv zeta in *.
  destruct (load_modules lower modules []) as [skills es]. cbn [fst length] in *.
  split; [|split; [|split; [|split]]].
  - intros key skill H. destruct (H1 key skill H) as [Hs|(m & Hin & ->)]; [discriminate|].
    exists m. split; [exact Hin|]. unfold registry_key. destruct (name_of skill); reflexivity.
  - intros m skill Hin. specialize (H3 m skill Hin). unfold registry_key in H3.
    destruct (name_of skill); exact H3.
  - reflexivity.
  - reflexivity.
  - lia.
Qed.

End MoreRegistry.

(** ** More facts about intent detection *)

(** A skill with no keywords is never selected. *)
Theorem skill_without_keywords_is_never_selected
    (imap : list (str * list str)) (text name : str) :
  NoDup (fst <$> imap) -> (name, []) ∈ imap -> detect_intent imap text <> Some name.
Proof.
  intros Hnd Hin Hd. apply detect_intent_Some in Hd as (before & kws & after & E & Hm & _).
  assert ((name, kws) ∈ imap) as Hin'.
  { rewrite E, elem_of_app. right. apply list_elem_of_here. }
  pose proof (NoDup_keys_entry imap name [] kws Hnd Hin Hin') as <-.
  destruct Hm as (kw & Hkw & _). inversion Hkw.
Qed.

(** An empty string among the keywords of a registered skill occurs in
    every text, so [detect_intent] finds an intent for every input. When
    the intent map and the registry name the same skills, as they do after
    [__init__], and no skill is registered under the empty name, every
    input is then routed to a skill and none gets the help message; an
    intent that is the empty name is falsy and gets the help message all
    the same. *)
Theorem empty_keyword_matches_every_input
    (lower capitalize : str -> str) (file_text : Type)
    (json_dump : gmap str pyval -> file_text * option exn)
    (self : AssistantBrain file_text) (text name : str) (kws : list str) :
  (name, kws) ∈ intent_map self -> [] ∈ kws ->
  (exists intent, detect_intent (intent_map self) (lower text) = Some intent) /\
  (registry_consistent self -> [] ∉ fst <$> skill_objects self ->
   exists intent skill,
     detect_intent (intent_map self) (lower text) = Some intent /\
     dict_get intent (skill_objects self) = Some skill /\
     process_input lower capitalize json_dump text self =
       let '(r, self', trace) := route_to_skill capitalize json_dump intent skill text self in
       (r, self', Logged INFO (UserInput text) :: trace)) /\
  (detect_intent (intent_map self) (lower text) = Some [] ->
   process_input lower capitalize json_dump text self =
     (Ret (help_message capitalize self), self, [Logged INFO (UserInput text)])).
Proof.
  intros Hin Hk.
  assert (exists intent, detect_intent (intent_map self) (lower text) = Some intent)
    as [intent Hd].
  { destruct (detect_intent (intent_map self) (lower text)) as [intent|] eqn:E; [eauto|].
    exfalso. apply detect_intent_None in E. rewrite Forall_forall in E.
    apply (E _ Hin). exists []. split; [exact Hk|]. exists [], (lower text). reflexivity. }
  split; [eauto|]. split.
  - intros Hrc Hne.
    assert (intent ∈ fst <$> skill_objects self) as Hreg.
    { rewrite <- Hrc. eapply detect_intent_registered, Hd. }
    destruct (dict_get_is_Some _ _ Hreg) as [skill Hs].
    exists intent, skill. split; [exact Hd|]. split; [exact Hs|].
    rewrite process_input_eq, Hd.
    destruct intent as [|c intent]; [contradiction|]. rewrite Hs. reflexivity.
  - intros H0. rewrite process_input_eq, H0. reflexivity.
Qed.

Lemma capitalised_never_occurs (lower : str -> str) (kw text : str) :
  lowers lower -> capitalised kw -> ~ occurs_in kw (lower text).
Proof.
  intros Hl (c & Hc & Hu) (before & after & E).
  assert (c ∈ lower text) as Hin.
  { rewrite E, !elem_of_app. right. left. exact Hc. }
  rewrite (Hl text c Hin) in Hu. discriminate.
Qed.

(** Keywords are compared as they are with the lower-cased text: a skill
    each of whose keywords has a capital letter in it is never selected,
    whatever the input. *)
Theorem capitalised_keywords_never_match
    (lower : str -> str) (imap : list (str * list str)) (text name : str) (kws : list str) :
  lowers lower ->
  NoDup (fst <$> imap) -> (name, kws) ∈ imap -> Forall capitalised kws ->
  detect_intent imap (lower text) <> Some name.
Proof.
  intros Hl Hnd Hin Hcap Hd.
  apply detect_intent_Some in Hd as (before & kws' & after & E & Hm & _).
  assert ((name, kws') ∈ imap) as Hin'.
  { rewrite E, elem_of_app. right. apply list_elem_of_here. }
  pose proof (NoDup_keys_entry imap name kws kws' Hnd Hin Hin') as <-.
  destruct Hm as (kw & Hkw & Ho). rewrite Forall_forall in Hcap.
  exact (capitalised_never_occurs lower kw text Hl (Hcap kw Hkw) Ho).
Qed.

(** ** More facts about the store *)

Section MoreStore.

Variable file_text : Type.
Variable json_dump : gmap str pyval -> file_text * option exn.
Variable json_load : file_text -> option (gmap str pyval).

(** [save_context] never raises and never changes the memory. When the
    file cannot be opened the disk is as it was; when it can, the file is
    replaced by what [json.dump] wrote, also when the dump stopped at an
    exception. Either failure leaves one error in the log. *)
Theorem save_context_failure_modes (dm : DataManager file_text) :
  let out := save_context json_dump dm in
  result_of out = Ret tt /\
  context_memory (state_of out) = context_memory dm /\
  writable (state_of out) = writable dm /\
  context_file (state_of out) =
    (if writable dm then Some (fst (json_dump (context_memory dm))) else context_file dm) /\
  trace_of out =
    (if writable dm
     then match snd (json_dump (context_memory dm)) with
          | None => []
          | Some e => [Logged ERROR (SaveFailed e)]
          end
     else [Logged ERROR (SaveFailed (OtherError (lit "PermissionError")
                                       (lit "Permission denied")))]).
Proof.
  cbv zeta.
  unfold save_context, try_except, bind, get, put, ret, raise, emit,
    result_of, state_of, trace_of.
  destruct dm as [file w m]. cbn [writable context_memory context_file].
  destruct w; [|repeat split].
  destruct (json_dump m) as [written [e|]]; repeat split.
Qed.

(** A save that stops half-way costs the context saved before: the file
    then holds the part that was written, and when that does not parse, a
    new [DataManager] on the file starts with an empty memory and logs
    that the file is corrupted. *)
Theorem failed_save_loses_the_context
    (dm : DataManager file_text) (partial : file_text) (e : exn) :
  writable dm = true ->
  json_dump (context_memory dm) = (partial, Some e) ->
  json_load partial = None ->
  let saved := state_of (save_context json_dump dm) in
  context_file saved = Some partial /\
  DataManager_init json_load (context_file saved) (writable saved) =
    ({| context_file := Some partial; writable := true; context_memory := ∅ |},
     [Logged ERROR ContextCorrupted]).
Proof.
  intros Hw Hd Hl. cbv zeta.
  unfold save_context, DataManager_init, load_context,
    try_except, bind, get, put, ret, raise, emit, state_of.
  destruct dm as [file w m]. cbn [writable context_memory] in *. subst w.
  rewrite Hd. cbn. rewrite Hl. cbn. split; reflexivity.
Qed.

(** What [save_to_memory] stored is what [read_from_memory] reads, under
    that key and under no other; the typed readers give it back when it
    has their type and an empty list or dict when it has not; and the
    memory is saved to the file at once. *)
Theorem save_to_memory_reads_back
    (dm : DataManager file_text) (key : str) (value default_value : pyval) :
  let out := save_to_memory json_dump key value (Some dm) in
  result_of out = Ret tt /\
  exists dm',
    state_of out = Some dm' /\
    read_from_memory (Some dm') key default_value = value /\
    (forall k, k <> key ->
       read_from_memory (Some dm') k default_value = read_from_memory (Some dm) k default_value) /\
    safe_read_list (Some dm') key = match value with PList l => l | _ => [] end /\
    safe_read_dict (Some dm') key = match value with PDict d => d | _ => ∅ end /\
    context_file dm' =
      (if writable dm then Some (fst (json_dump (<[key := value]> (context_memory dm))))
       else context_file dm).
Proof.
  cbv zeta. unfold save_to_memory, try_except, bind, get, put, on_present.
  set (dm1 := {| context_file := context_file dm; writable := writable dm;
                 context_memory := <[key := value]> (context_memory dm) |}).
  destruct (save_context_returns _ json_dump dm1) as (Hr & Hm & _).
  destruct (save_context_file _ json_dump dm1) as (Hf & _).
  unfold result_of, state_of in *.
  destruct (save_context json_dump dm1) as [[r dm'] es]. cbn [fst snd] in *. subst r.
  cbn [fst snd]. split; [reflexivity|]. exists dm'. split; [reflexivity|].
  unfold safe_read_list, safe_read_dict, read_from_memory. rewrite Hm. cbn [context_memory dm1].
  rewrite lookup_insert_eq. cbn [default from_option id].
  repeat split.
  - intros k Hk. rewrite lookup_insert_ne by congruence. reflexivity.
  - exact Hf.
Qed.

End MoreStore.

(** ** Facts about the to-do skill *)

Lemma after_first_is_Some (sep text : str) :
  contains sep text = true -> is_Some (after_first sep text).
Proof.
  induction text as [|c text IH]; cbn [contains after_first].
  - rewrite orb_false_r. intros ->. eexists; reflexivity.
  - destruct (startswith sep (c :: text)); [intros _; eexists; reflexivity|].
    cbn [orb]. exact IH.
Qed.

Section Todo.

Variable file_text : Type.
Variable json_dump : gmap str pyval -> file_text * option exn.
Variable now : str.
Variable py_str : pyval -> str.
Variable dict_keys : gmap str pyval -> list str.

Local Abbreviation todo := (TodoSkill_execute json_dump now py_str dict_keys).

Lemma _save_tasks_eq (tasks : pyval) (dm : DataManager file_text) :
  let saved :=
    state_of (save_context json_dump
                {| context_file := context_file dm; writable := writable dm;
                   context_memory := <[todo_list := tasks]> (context_memory dm) |}) in
  exists es,
    _save_tasks json_dump tasks (Some dm) = (Ret tt, Some saved, es) /\
    context_memory saved = <[todo_list := tasks]> (context_memory dm) /\
    writable saved = writable dm /\
    context_file saved =
      (if writable dm
       then Some (fst (json_dump (<[todo_list := tasks]> (context_memory dm))))
       else context_file dm).
Proof.
  cbv zeta. unfold _save_tasks, bind, get, put, on_present.
  set (dm1 := {| context_file := context_file dm; writable := writable dm;
                 context_memory := <[todo_list := tasks]> (context_memory dm) |}).
  destruct (save_context_returns _ json_dump dm1) as (Hr & Hm & Hw).
  destruct (save_context_file _ json_dump dm1) as (Hf & _).
  unfold result_of, state_of in *.
  destruct (save_context json_dump dm1) as [[r dm'] es]. cbn [fst snd] in *. subst r.
  exists es. repeat split; assumption.
Qed.

Lemma requested_task_Some (args content : str) :
  requested_task args = Some content ->
  asks_add args = true /\
  exists rest,
    after_first (if contains (lit "add:") args then lit "add:" else lit "ekle") args = Some rest /\
    content = strip rest.
Proof.
  unfold requested_task. destruct (asks_add args); [|discriminate].
  destruct (after_first _ args) as [rest|]; [|discriminate].
  intros [= <-]. split; [reflexivity|]. exists rest. split; reflexivity.
Qed.

Lemma truthy_true (s : str) : s <> [] -> truthy s = true.
Proof. destruct s; [congruence | reflexivity]. Qed.

(** Adding a task appends it to the stored list, or to an empty one when
    none is stored, as a pending task with the time of the call, answers
    that it was added, and saves the memory to the file at once. *)
Theorem todo_add_stores_the_task
    (dm : DataManager file_text) (args content : str) (l : list pyval) :
  requested_task args = Some content -> content <> [] ->
  stored_tasks dm = PList l ->
  let out := todo args (Some dm) in
  result_of out = Ret (task_added content) /\
  exists dm',
    state_of out = Some dm' /\
    context_memory dm' =
      <[todo_list := PList (l ++ [new_task now content])]> (context_memory dm) /\
    context_file dm' =
      (if writable dm
       then Some (fst (json_dump (<[todo_list := PList (l ++ [new_task now content])]>
                                    (context_memory dm))))
       else context_file dm).
Proof.
  intros Hreq Hne Hl. cbv zeta.
  destruct (requested_task_Some _ _ Hreq) as (Hadd & rest & Hrest & ->).
  unfold TodoSkill_execute, try_except, bind, get, ret. unfold stored_tasks in Hl.
  rewrite Hadd, Hrest, (truthy_true _ Hne), Hl. cbn [negb].
  destruct (_save_tasks_eq (PList (l ++ [new_task now (strip rest)])) dm)
    as (es & Hs & Hm & _ & Hf). cbv zeta in Hs.
  rewrite Hs. unfold result_of, state_of. cbn [fst snd].
  split; [reflexivity|]. eexists. split; [reflexivity|]. split; assumption.
Qed.

(** A request to add with nothing, or only whitespace, after [add:] (or
    after [ekle], when there is no [add:]) is refused and changes nothing,
    whatever is stored. *)
Theorem todo_refuses_an_empty_task
    (data_manager : option (DataManager file_text)) (args : str) :
  requested_task args = Some [] ->
  todo args data_manager = (Ret empty_task, data_manager, []).
Proof.
  intros Hreq. destruct (requested_task_Some _ _ Hreq) as (Hadd & rest & Hrest & Hs).
  unfold TodoSkill_execute, try_except, bind, get, ret.
  rewrite Hadd, Hrest, <- Hs. reflexivity.
Qed.

(** [execute] never raises: what goes wrong inside it comes back as a
    formatted error. And an input that neither adds nor clears, a listing
    or anything else, changes nothing. *)
Theorem todo_never_raises
    (data_manager : option (DataManager file_text)) (args : str) :
  let out := todo args data_manager in
  (exists answer, result_of out = Ret answer) /\
  (asks_add args = false -> asks_list args = true \/ asks_clear args = false ->
   state_of out = data_manager /\ trace_of out = []).
Proof.
  cbv zeta. unfold TodoSkill_execute, try_except, bind, get, ret, raise,
    result_of, state_of, trace_of.
  cbn [fst snd].
  set (tasks := default (PList []) _).
  destruct (asks_add args).
  - split; [|discriminate].
    destruct (after_first _ args) as [rest|]; [|eexists; reflexivity].
    destruct (truthy (strip rest)); cbn [negb]; [|eexists; reflexivity].
    destruct tasks; try (eexists; reflexivity).
    destruct data_manager as [dm|].
    + destruct (_save_tasks_eq (PList (l ++ [new_task now (strip rest)])) dm)
        as (es & Hs & _). cbv zeta in Hs. rewrite Hs. eexists; reflexivity.
    + eexists; reflexivity.
  - destruct (asks_list args).
    + destruct (py_truthy tasks); cbn [negb];
        [destruct (py_iter dict_keys tasks)|]; (split; [eexists; reflexivity | auto]).
    + destruct (asks_clear args).
      * split; [|intros _ [?|?]; discriminate].
        destruct data_manager as [dm|]; [|eexists; reflexivity].
        destruct (_save_tasks_eq (PList []) dm) as (es & Hs & _). cbv zeta in Hs.
        rewrite Hs. eexists; reflexivity.
      * split; [eexists; reflexivity | auto].
Qed.

(** When what is stored under [todo_list] is not a list, a request to
    add answers with the formatted error of the failed [append] and
    changes nothing. *)
Theorem todo_add_on_a_non_list
    (dm : DataManager file_text) (args content : str) :
  requested_task args = Some content -> content <> [] ->
  (forall l, stored_tasks dm <> PList l) ->
  todo args (Some dm) =
    (Ret (todo_error (OtherError (lit "AttributeError")
                        (lit "'" ++ type_name (stored_tasks dm)
                           ++ lit "' object has no attribute 'append'"))),
     Some dm, []).
Proof.
  intros Hreq Hne Hl.
  destruct (requested_task_Some _ _ Hreq) as (Hadd & rest & Hrest & ->).
  unfold TodoSkill_execute, try_except, bind, get, ret, raise. unfold stored_tasks in *.
  rewrite Hadd, Hrest, (truthy_true _ Hne). cbn [negb].
  destruct (default (PList []) (context_memory dm !! todo_list)) eqn:E;
    try reflexivity.
  exfalso. exact (Hl _ eq_refl).
Qed.

Lemma todo_lines_snoc (l : list pyval) (t : pyval) :
  todo_lines py_str (l ++ [t]) = todo_lines py_str l ++ [todo_line py_str (length l) t].
Proof.
  unfold todo_lines. rewrite imap_app. cbn [imap]. rewrite Nat.add_0_r. reflexivity.
Qed.

Lemma todo_line_new_task (i : nat) (content : str) :
  todo_line py_str i (new_task now content) =
  str_of_int (Z.of_nat i + 1) ++ lit ". " ++ content ++ lit " _(" ++ now ++ lit ")_".
Proof.
  unfold todo_line, new_task.
  rewrite lookup_insert_eq.
  rewrite lookup_insert_ne by (intros H; vm_compute in H; discriminate).
  rewrite lookup_insert_eq. reflexivity.
Qed.

(** A task that was added is the last line of the next listing, with its
    number, its text and the time it was added. *)
Theorem todo_lists_the_task_added
    (dm : DataManager file_text) (args content request : str) (l : list pyval) :
  requested_task args = Some content -> content <> [] ->
  stored_tasks dm = PList l ->
  asks_add request = false -> asks_list request = true ->
  result_of (todo request (state_of (todo args (Some dm)))) =
    Ret (lit "### " ++ [128221%N] ++ lit " Your Tasks" ++ [10%N]
           ++ join [10%N]
                (todo_lines py_str l ++
                 [str_of_int (Z.of_nat (length l) + 1) ++ lit ". " ++ content
                    ++ lit " _(" ++ now ++ lit ")_"])).
Proof.
  intros Hreq Hne Hl Hadd' Hlist.
  destruct (requested_task_Some _ _ Hreq) as (Hadd & rest & Hrest & ->).
  unfold TodoSkill_execute at 2. unfold try_except, bind, get, ret. unfold stored_tasks in Hl.
  rewrite Hadd, Hrest, (truthy_true _ Hne), Hl. cbn [negb].
  destruct (_save_tasks_eq (PList (l ++ [new_task now (strip rest)])) dm)
    as (es & Hs & Hm & _). cbv zeta in Hs.
  rewrite Hs. unfold state_of at 1. cbn [fst snd].
  unfold TodoSkill_execute, try_except, bind, get, ret, result_of.
  rewrite Hadd', Hlist, Hm, lookup_insert_eq. cbn [default from_option id].
  assert (py_truthy (PList (l ++ [new_task now (strip rest)])) = true) as ->
    by (destruct l; reflexivity).
  cbn [negb py_iter fst]. rewrite todo_lines_snoc, todo_line_new_task. reflexivity.
Qed.

(** Clearing stores the empty list and saves it; the next listing says
    that the list is empty. *)
Theorem todo_clear_empties_the_list
    (dm : DataManager file_text) (args request : str) :
  asks_add args = false -> asks_list args = false -> asks_clear args = true ->
  asks_add request = false -> asks_list request = true ->
  let out := todo args (Some dm) in
  result_of out = Ret list_cleared /\
  (exists dm',
      state_of out = Some dm' /\
      context_memory dm' = <[todo_list := PList []]> (context_memory dm) /\
      context_file dm' =
        (if writable dm
         then Some (fst (json_dump (<[todo_list := PList []]> (context_memory dm))))
         else context_file dm)) /\
  todo request (state_of out) = (Ret list_is_empty, state_of out, []).
Proof.
  intros Ha Hl Hc Ha' Hl'. cbv zeta.
  destruct (_save_tasks_eq (PList []) dm) as (es & Hs & Hm & _ & Hf). cbv zeta in Hs.
  set (saved := state_of (save_context json_dump
                 {| context_file := context_file dm; writable := writable dm;
                    context_memory := <[todo_list := PList []]> (context_memory dm) |})) in *.
  assert (todo args (Some dm) = (Ret list_cleared, Some saved, es ++ [])) as Hout.
  { unfold TodoSkill_execute, try_except, bind, get, ret.
    rewrite Ha, Hl, Hc, Hs. reflexivity. }
  rewrite Hout. unfold result_of, state_of. cbn [fst snd].
  split; [reflexivity|]. split; [exists saved; split; [reflexivity|]; split; assumption|].
  unfold TodoSkill_execute, try_except, bind, get, ret.
  rewrite Ha', Hl', Hm, lookup_insert_eq. reflexivity.
Qed.

(** Without a data manager a task is acknowledged and lost: the answer
    says it was added, nothing is stored, and the next listing says that
    the list is empty. *)
Theorem todo_without_a_data_manager (args content request : str) :
  requested_task args = Some content -> content <> [] ->
  asks_add request = false -> asks_list request = true ->
  todo args None = (Ret (task_added content), None, []) /\
  todo request None = (Ret list_is_empty, None, []).
Proof.
  intros Hreq Hne Ha' Hl'.
  destruct (requested_task_Some _ _ Hreq) as (Hadd & rest & Hrest & ->).
  unfold TodoSkill_execute, try_except, bind, get, ret, _save_tasks.
  rewrite Hadd, Hrest, (truthy_true _ Hne), Ha', Hl'. split; reflexivity.
Qed.

End Todo.

(** ** The further facts on concrete skills *)

Lemma lower_ascii_lowers : lowers lower_ascii.
Proof.
  intros text c [y [-> _]]%list_elem_of_fmap. unfold lower_char, ascii_upper.
  destruct (N.leb_spec 65 y), (N.leb_spec y 90); cbn [andb];
    destruct (N.leb_spec 65 (y + 32)), (N.leb_spec (y + 32) 90);
    destruct (N.leb_spec 65 y), (N.leb_spec y 90); cbn [andb]; try reflexivity; lia.
Qed.

Lemma run_rejects_unconfigured_skill_witness :
  snd (validate_input unconfigured_skill (lit "news today")) = Ret true /\
  snd (check_configuration unconfigured_skill) = Ret false /\
  state_of (run capitalize_ascii unconfigured_skill (lit "news today") None 4%nat) = 4%nat /\
  executed (trace_of (run capitalize_ascii unconfigured_skill (lit "news today") None 4%nat)) = [].
Proof.
  assert (snd (validate_input unconfigured_skill (lit "news today")) = Ret true) as Hv
    by reflexivity.
  assert (snd (check_configuration unconfigured_skill) = Ret false) as Hc by reflexivity.
  split; [exact Hv|]. split; [exact Hc|].
  destruct (run_rejects_unconfigured_skill capitalize_ascii unconfigured_skill
              (lit "news today") None 4%nat Hv Hc) as (_ & Hn & _ & _ & He).
  split; [exact Hn | exact He].
Defined.


Lemma inner_timeout_is_reported_as_deadline_witness :
  gates_pass fetch_skill (lit "fetch it") /\
  0 < actual_timeout fetch_skill None /\
  ~ exceeds (execute fetch_skill (lit "fetch it")) (actual_timeout fetch_skill None) /\
  snd (complete (execute fetch_skill (lit "fetch it"))) = Raise (TimeoutError []) /\
  paths_taken (trace_of (run capitalize_ascii fetch_skill (lit "fetch it") None 0%nat))
    = [TimeoutPath].
Proof.
  assert (gates_pass fetch_skill (lit "fetch it")) as Hg by (split; reflexivity).
  assert (0 < actual_timeout fetch_skill None) as Hd by reflexivity.
  assert (~ exceeds (execute fetch_skill (lit "fetch it")) (actual_timeout fetch_skill None))
    as Hx by (vm_compute; discriminate).
  assert (snd (complete (execute fetch_skill (lit "fetch it"))) = Raise (TimeoutError []))
    as Hc by reflexivity.
  repeat (split; [assumption|]).
  apply (inner_timeout_is_reported_as_deadline capitalize_ascii fetch_skill
           (lit "fetch it") None 0%nat [] Hg Hd Hx Hc).
Defined.

Lemma unmatched_input_gets_help_witness :
  Forall (fun entry => ~ matches (snd entry) (lower_ascii (lit "Hello there")))
    (intent_map scenario_brain) /\
  result_of (process_input lower_ascii capitalize_ascii dump_plain
               (lit "Hello there") scenario_brain) =
    Ret (help_message capitalize_ascii scenario_brain).
Proof.
  assert (Forall (fun entry => ~ matches (snd entry) (lower_ascii (lit "Hello there")))
            (intent_map scenario_brain)) as H.
  { apply detect_intent_None. vm_compute. reflexivity. }
  split; [exact H|].
  destruct (unmatched_input_gets_help lower_ascii capitalize_ascii _ dump_plain
              (lit "Hello there") scenario_brain H) as [-> _].
  reflexivity.
Defined.

Lemma update_memory_records_the_turn_witness :
  history_appendable (memory scenario_brain) /\
  history_of (memory (state_of (_update_memory dump_plain (lit "echo") (lit "echo hi")
                                  (lit "echo hi") scenario_brain)))
    = Some [PDict (<[lit "user" := PStr (lit "echo hi")]>
                     (<[lit "assistant" := PStr (lit "echo hi")]> ∅))] /\
  memory (state_of (_update_memory dump_plain (lit "echo") (lit "echo hi")
                      (lit "echo hi") scenario_brain)) !! lit "last_action"
    = Some (PStr (lit "echo")).
Proof.
  assert (history_appendable (memory scenario_brain)) as Ha by exact I.
  split; [exact Ha|].
  destruct (update_memory_records_the_turn _ dump_plain (lit "echo") (lit "echo hi")
              (lit "echo hi") scenario_brain Ha) as (_ & H & _).
  split; [vm_compute; reflexivity | exact H].
Defined.

Lemma skill_failure_is_answered_witness :
  name_of old_skill = Some (lit "old") /\
  skill_result capitalize_ascii old_skill (lit "old one")
    = Raise (OtherError (lit "KeyError") (lit "'city'")) /\
  result_of (route_to_skill capitalize_ascii dump_plain (lit "old") old_skill
               (lit "old one") scenario_brain)
    = Ret ([10060%N] ++ lit " An internal error occurred while processing via old.").
Proof.
  assert (name_of old_skill = Some (lit "old")) as Hn by reflexivity.
  assert (skill_result capitalize_ascii old_skill (lit "old one")
          = Raise (OtherError (lit "KeyError") (lit "'city'"))) as Ho by reflexivity.
  split; [exact Hn|]. split; [exact Ho|].
  destruct (skill_failure_is_answered capitalize_ascii _ dump_plain (lit "old") old_skill
              (lit "old one") _ _ scenario_brain Hn Ho) as (Hr & _).
  exact Hr.
Defined.

Lemma update_memory_fails_on_a_non_list_history_witness :
  ~ history_appendable (memory broken_brain) /\
  result_of (_update_memory dump_plain (lit "echo") (lit "echo") (lit "echo") broken_brain)
    = Raise (OtherError (lit "AttributeError")
               (lit "'NoneType' object has no attribute 'append'")) /\
  context_file (data_manager
                  (state_of (_update_memory dump_plain (lit "echo") (lit "echo") (lit "echo")
                               broken_brain))) = None.
Proof.
  assert (~ history_appendable (memory broken_brain)) as Ha by (intros H; exact H).
  split; [exact Ha|].
  destruct (update_memory_fails_on_a_non_list_history _ dump_plain (lit "echo") (lit "echo")
              (lit "echo") broken_brain Ha) as ((stored & Hs & Hr) & _ & _ & _ & _ & Hf & _).
  split; [|exact Hf].
  rewrite Hr. vm_compute in Hs. injection Hs as <-. reflexivity.
Defined.

Lemma recorded_turn_survives_restart_witness :
  let dm' := data_manager (state_of (route_to_skill capitalize_ascii dump_plain (lit "echo")
                                       (Instance echo_skill 0) (lit "echo hi") scenario_brain)) in
  history_appendable (memory scenario_brain) /\
  writable (data_manager scenario_brain) = true /\
  skill_outcome capitalize_ascii (Instance echo_skill 0) (lit "echo hi") = Ret (lit "echo hi") /\
  snd (dump_plain (context_memory dm')) = None /\
  context_memory (fst (DataManager_init load_plain (context_file dm') (writable dm')))
    = context_memory dm'.
Proof.
  cbv zeta.
  assert (forall (m text : gmap str pyval), dump_plain m = (text, None) -> load_plain text = Some m)
    as Hrt by (intros m text [= ->]; reflexivity).
  assert (history_appendable (memory scenario_brain)) as Ha by exact I.
  assert (writable (data_manager scenario_brain) = true) as Hw by reflexivity.
  assert (skill_outcome capitalize_ascii (Instance echo_skill 0) (lit "echo hi")
          = Ret (lit "echo hi")) as Ho by (vm_compute; reflexivity).
  split; [exact Ha|]. split; [exact Hw|]. split; [exact Ho|]. split; [reflexivity|].
  apply (recorded_turn_survives_restart capitalize_ascii _ dump_plain load_plain (lit "echo")
           (Instance echo_skill 0) (lit "echo hi") (lit "echo hi") scenario_brain
           Hrt Ha Hw Ho eq_refl).
Defined.

Lemma failed_loads_are_skipped_witness :
  Forall (fun c => exists s, c = Ret s) [Ret (Instance echo_skill 0)] /\
  fst (load_skills lower_ascii
         (Some ([(lit "weather_skill", Raise import_error)]
                ++ (lit "mixed", Ret ([Ret (Instance echo_skill 0)]
                                        ++ Raise import_error
                                        :: [Ret (Instance parrot_skill 0)]))
                :: [(lit "fail_skill", Ret [Ret (Instance fail_skill 0)])])))
  = fst (load_skills lower_ascii
           (Some ([(lit "weather_skill", Raise import_error)]
                  ++ (lit "mixed", Ret [Ret (Instance echo_skill 0)])
                  :: [(lit "fail_skill", Ret [Ret (Instance fail_skill 0)])]))).
Proof.
  assert (Forall (fun c : res skill_obj => exists s, c = Ret s) [Ret (Instance echo_skill 0)])
    as Hgood by (constructor; [eexists; reflexivity | constructor]).
  split; [exact Hgood|].
  apply (failed_loads_are_skipped lower_ascii [(lit "weather_skill", Raise import_error)]
           [(lit "fail_skill", Ret [Ret (Instance fail_skill 0)])] (lit "mixed") import_error
           [Ret (Instance echo_skill 0)] [Ret (Instance parrot_skill 0)] Hgood).
Defined.

Lemma skill_without_keywords_is_never_selected_witness :
  NoDup (fst <$> [(lit "mute", []); (lit "echo", [lit "echo"])]) /\
  (lit "mute", []) ∈ [(lit "mute", @nil str); (lit "echo", [lit "echo"])] /\
  detect_intent [(lit "mute", []); (lit "echo", [lit "echo"])] (lit "echo") <> Some (lit "mute").
Proof.
  assert (NoDup (fst <$> [(lit "mute", @nil str); (lit "echo", [lit "echo"])])) as Hnd.
  { apply (bool_decide_unpack _). vm_compute. exact I. }
  assert ((lit "mute", []) ∈ [(lit "mute", @nil str); (lit "echo", [lit "echo"])]) as Hin
    by apply list_elem_of_here.
  split; [exact Hnd|]. split; [exact Hin|].
  apply (skill_without_keywords_is_never_selected _ (lit "echo") (lit "mute") Hnd Hin).
Defined.

Lemma empty_keyword_matches_every_input_witness :
  (lit "all", [@nil N]) ∈ intent_map catch_all_brain /\
  [] ∈ [@nil N] /\
  exists intent,
    detect_intent (intent_map catch_all_brain) (lower_ascii (lit "Hello")) = Some intent.
Proof.
  assert ((lit "all", [@nil N]) ∈ intent_map catch_all_brain) as Hin
    by (apply list_elem_of_further, list_elem_of_here).
  assert ([] ∈ [@nil N]) as Hk by apply list_elem_of_here.
  split; [exact Hin|]. split; [exact Hk|].
  apply (empty_keyword_matches_every_input lower_ascii capitalize_ascii _ dump_plain
           catch_all_brain (lit "Hello") (lit "all") [@nil N] Hin Hk).
Defined.

(** An input no keyword of [echo] occurs in is routed to the skill with
    the empty keyword. *)
Example catch_all_answers :
  result_of (process_input lower_ascii capitalize_ascii dump_plain (lit "Hello")
               catch_all_brain) = Ret (lit "HelloHello").
Proof. vm_compute. reflexivity. Qed.

Lemma capitalised_keywords_never_match_witness :
  lowers lower_ascii /\
  NoDup (fst <$> [(lit "echo", [lit "Echo"])]) /\
  (lit "echo", [lit "Echo"]) ∈ [(lit "echo", [lit "Echo"])] /\
  Forall capitalised [lit "Echo"] /\
  detect_intent [(lit "echo", [lit "Echo"])] (lower_ascii (lit "Echo this")) <> Some (lit "echo").
Proof.
  assert (NoDup (fst <$> [(lit "echo", [lit "Echo"])])) as Hnd.
  { apply (bool_decide_unpack _). vm_compute. exact I. }
  assert ((lit "echo", [lit "Echo"]) ∈ [(lit "echo", [lit "Echo"])]) as Hin
    by apply list_elem_of_here.
  assert (Forall capitalised [lit "Echo"]) as Hcap.
  { constructor; [|constructor]. exists 69%N. split; [apply list_elem_of_here | reflexivity]. }
  split; [exact lower_ascii_lowers|]. split; [exact Hnd|]. split; [exact Hin|].
  split; [exact Hcap|].
  apply (capitalised_keywords_never_match lower_ascii _ (lit "Echo this") (lit "echo")
           [lit "Echo"] lower_ascii_lowers Hnd Hin Hcap).
Defined.

Lemma failed_save_loses_the_context_witness :
  writable blob_store = true /\
  dump_guarded (context_memory blob_store) =
    (None, Some (OtherError (lit "TypeError")
                   (lit "Object of type bytes is not JSON serializable"))) /\
  load_guarded None = None /\
  context_file (state_of (save_context dump_guarded blob_store)) = Some None.
Proof.
  assert (dump_guarded (context_memory blob_store) =
          (None, Some (OtherError (lit "TypeError")
                         (lit "Object of type bytes is not JSON serializable")))) as Hd
    by (vm_compute; reflexivity).
  split; [reflexivity|]. split; [exact Hd|]. split; [reflexivity|].
  apply (failed_save_loses_the_context _ dump_guarded load_guarded blob_store None _
           eq_refl Hd eq_refl).
Defined.

Lemma todo_add_stores_the_task_witness :
  requested_task (lit "todo add: Buy milk") = Some (lit "Buy milk") /\
  lit "Buy milk" <> [] /\
  stored_tasks fresh_store = PList [] /\
  result_of (TodoSkill_execute dump_plain clock plain_str keys_of
               (lit "todo add: Buy milk") (Some fresh_store))
    = Ret (task_added (lit "Buy milk")).
Proof.
  assert (requested_task (lit "todo add: Buy milk") = Some (lit "Buy milk")) as Hreq
    by (vm_compute; reflexivity).
  assert (lit "Buy milk" <> []) as Hne by discriminate.
  assert (stored_tasks fresh_store = PList []) as Hl by reflexivity.
  split; [exact Hreq|]. split; [exact Hne|]. split; [exact Hl|].
  apply (todo_add_stores_the_task _ dump_plain clock plain_str keys_of fresh_store
           (lit "todo add: Buy milk") (lit "Buy milk") [] Hreq Hne Hl).
Defined.

Lemma todo_refuses_an_empty_task_witness :
  requested_task ([115; 252; 116]%N ++ lit " ekle") = Some [] /\
  TodoSkill_execute dump_plain clock plain_str keys_of
    ([115; 252; 116]%N ++ lit " ekle") (Some fresh_store)
  = (Ret empty_task, Some fresh_store, []).
Proof.
  assert (requested_task ([115; 252; 116]%N ++ lit " ekle") = Some []) as Hreq
    by (vm_compute; reflexivity).
  split; [exact Hreq|].
  apply (todo_refuses_an_empty_task _ dump_plain clock plain_str keys_of (Some fresh_store)
           _ Hreq).
Defined.

Lemma todo_add_on_a_non_list_witness :
  requested_task (lit "todo add: Buy milk") = Some (lit "Buy milk") /\
  lit "Buy milk" <> [] /\
  (forall l, stored_tasks string_store <> PList l) /\
  result_of (TodoSkill_execute dump_plain clock plain_str keys_of
               (lit "todo add: Buy milk") (Some string_store))
    = Ret ([10060%N] ++ lit " Todo Error: 'str' object has no attribute 'append'").
Proof.
  assert (requested_task (lit "todo add: Buy milk") = Some (lit "Buy milk")) as Hreq
    by (vm_compute; reflexivity).
  assert (lit "Buy milk" <> []) as Hne by discriminate.
  assert (forall l, stored_tasks string_store <> PList l) as Hl
    by (intros l H; vm_compute in H; discriminate).
  split; [exact Hreq|]. split; [exact Hne|]. split; [exact Hl|].
  rewrite (todo_add_on_a_non_list _ dump_plain clock plain_str keys_of string_store
             (lit "todo add: Buy milk") (lit "Buy milk") Hreq Hne Hl).
  vm_compute. reflexivity.
Defined.

Lemma todo_lists_the_task_added_witness :
  requested_task (lit "todo add: Buy milk") = Some (lit "Buy milk") /\
  lit "Buy milk" <> [] /\
  stored_tasks fresh_store = PList [] /\
  asks_add (lit "todo list") = false /\
  asks_list (lit "todo list") = true /\
  result_of (TodoSkill_execute dump_plain clock plain_str keys_of (lit "todo list")
               (state_of (TodoSkill_execute dump_plain clock plain_str keys_of
                            (lit "todo add: Buy milk") (Some fresh_store))))
    = Ret (lit "### " ++ [128221%N] ++ lit " Your Tasks" ++ [10%N]
             ++ lit "1. Buy milk _(2026-01-05 09:30)_").
Proof.
  assert (requested_task (lit "todo add: Buy milk") = Some (lit "Buy milk")) as Hreq
    by (vm_compute; reflexivity).
  assert (lit "Buy milk" <> []) as Hne by discriminate.
  assert (stored_tasks fresh_store = PList []) as Hl by reflexivity.
  assert (asks_add (lit "todo list") = false) as Ha by (vm_compute; reflexivity).
  assert (asks_list (lit "todo list") = true) as Hli by (vm_compute; reflexivity).
  repeat (split; [assumption|]).
  rewrite (todo_lists_the_task_added _ dump_plain clock plain_str keys_of fresh_store
             (lit "todo add: Buy milk") (lit "Buy milk") (lit "todo list") []
             Hreq Hne Hl Ha Hli).
  vm_compute. reflexivity.
Defined.

Lemma todo_clear_empties_the_list_witness :
  asks_add (lit "todo clear") = false /\
  asks_list (lit "todo clear") = false /\
  asks_clear (lit "todo clear") = true /\
  asks_add (lit "todo list") = false /\
  asks_list (lit "todo list") = true /\
  result_of (TodoSkill_execute dump_plain clock plain_str keys_of (lit "todo clear")
               (Some string_store)) = Ret list_cleared.
Proof.
  assert (asks_add (lit "todo clear") = false) as Ha by (vm_compute; reflexivity).
  assert (asks_list (lit "todo clear") = false) as Hl by (vm_compute; reflexivity).
  assert (asks_clear (lit "todo clear") = true) as Hc by (vm_compute; reflexivity).
  assert (asks_add (lit "todo list") = false) as Ha' by (vm_compute; reflexivity).
  assert (asks_list (lit "todo list") = true) as Hl' by (vm_compute; reflexivity).
  repeat (split; [assumption|]).
  apply (todo_clear_empties_the_list _ dump_plain clock plain_str keys_of string_store
           (lit "todo clear") (lit "todo list") Ha Hl Hc Ha' Hl').
Defined.

Lemma todo_without_a_data_manager_witness :
  requested_task (lit "todo add: Buy milk") = Some (lit "Buy milk") /\
  lit "Buy milk" <> [] /\
  asks_add (lit "todo list") = false /\
  asks_list (lit "todo list") = true /\
  TodoSkill_execute dump_plain clock plain_str keys_of (lit "todo add: Buy milk") None
    = (Ret (task_added (lit "Buy milk")), None, []).
Proof.
  assert (requested_task (lit "todo add: Buy milk") = Some (lit "Buy milk")) as Hreq
    by (vm_compute; reflexivity).
  assert (lit "Buy milk" <> []) as Hne by discriminate.
  assert (asks_add (lit "todo list") = false) as Ha by (vm_compute; reflexivity).
  assert (asks_list (lit "todo list") = true) as Hli by (vm_compute; reflexivity).
  repeat (split; [assumption|]).
  apply (todo_without_a_data_manager (gmap str pyval) dump_plain clock plain_str keys_of
           (lit "todo add: Buy milk") (lit "Buy milk") (lit "todo list") Hreq Hne Ha Hli).
Defined.
